(** * EGL offscreen rendering: the pixel-format helper, the shader builder,
      the error policy and the two-session coordinator

    A shallow embedding of [offscreen_egl.cpp] (single context) and
    [multithreads.cpp] (two sessions on one display connection).

    - C [int] / [GLsizei] / [GLint] / [EGLint] values are [Z] with the 32-bit
      two's-complement wrap-around written out ([to_int]); [size_t] values
      are [Z] reduced modulo 2^64 ([to_size_t]).  An overflowing signed
      operation, which C++ leaves undefined, is given the same wrap-around.
    - [GLenum] values are [Z]; the named constants carry the values of the
      Khronos headers the sources include.
    - Calls into EGL, GLES, stb_image_write and pthreads are answered by a
      driver oracle and recorded, in program order, in a trace; [printf]
      lines are recorded in [stdout].  The oracle is not constrained: it
      may return [EGL_FALSE] without raising an error, or raise an error
      and return [EGL_TRUE].
    - A [std::vector] constructed with a negative [int] count throws
      [std::length_error]; nothing catches it, and the process is aborted.
      The free store is assumed not to run out ([std::bad_alloc] is not
      modelled, for any allocation). *)

From Stdlib Require Import ZArith List String Bool Lia QArith.
Import ListNotations.
Local Open Scope string_scope.
Local Open Scope list_scope.
Local Open Scope Z_scope.

(* ================================================================== *)
(** ** Machine integers *)

Module MachineInt.

Definition INT_MAX : Z := 2147483647.
Definition INT_MIN : Z := -2147483648.

(** Conversion to a 32-bit signed [int] (two's complement). *)
Definition to_int (z : Z) : Z := (z + 2 ^ 31) mod 2 ^ 32 - 2 ^ 31.

(** Conversion to a 64-bit [size_t]. *)
Definition to_size_t (z : Z) : Z := z mod 2 ^ 64.

(** Conversion to a 32-bit [unsigned int] / [GLuint]. *)
Definition to_uint (z : Z) : Z := z mod 2 ^ 32.

Definition in_int (z : Z) : Prop := INT_MIN <= z <= INT_MAX.

Definition int_add (a b : Z) : Z := to_int (a + b).
Definition int_sub (a b : Z) : Z := to_int (a - b).
Definition int_mul (a b : Z) : Z := to_int (a * b).
(** [a % b] on [int]: the remainder of the division truncated towards 0. *)
Definition int_rem (a b : Z) : Z := Z.rem a b.

Definition size_add (a b : Z) : Z := to_size_t (a + b).
Definition size_mul (a b : Z) : Z := to_size_t (a * b).
(** Unsigned division of two [size_t] values. *)
Definition size_div (a b : Z) : Z := a / b.

(** Implicit conversion of a [double] to [unsigned int]: the fractional
    part is discarded. *)
Definition double_to_uint (q : Q) : Z := Z.quot (Qnum q) (Zpos (Qden q)).

End MachineInt.
Import MachineInt.

(* ================================================================== *)
(** ** Constants of the EGL and GLES headers *)

Module GLconst.
Definition GL_NO_ERROR : Z := 0.
Definition GL_BYTE : Z := 0x1400.
Definition GL_UNSIGNED_BYTE : Z := 0x1401.
Definition GL_SHORT : Z := 0x1402.
Definition GL_UNSIGNED_SHORT : Z := 0x1403.
Definition GL_INT : Z := 0x1404.
Definition GL_UNSIGNED_INT : Z := 0x1405.
Definition GL_FLOAT : Z := 0x1406.
Definition GL_FIXED : Z := 0x140C.
Definition GL_UNSIGNED_SHORT_4_4_4_4 : Z := 0x8033.
Definition GL_UNSIGNED_SHORT_5_5_5_1 : Z := 0x8034.
Definition GL_UNSIGNED_SHORT_5_6_5 : Z := 0x8363.
Definition GL_RGBA4_OES : Z := 0x8056.
Definition GL_RGB5_A1_OES : Z := 0x8057.
Definition GL_RGB565_OES : Z := 0x8D62.
Definition GL_UNSIGNED_INT_24_8_OES : Z := 0x84FA.
Definition GL_DEPTH_COMPONENT : Z := 0x1902.
Definition GL_ALPHA : Z := 0x1906.
Definition GL_RGB : Z := 0x1907.
Definition GL_RGBA : Z := 0x1908.
Definition GL_LUMINANCE : Z := 0x1909.
Definition GL_LUMINANCE_ALPHA : Z := 0x190A.
Definition GL_DEPTH_STENCIL_OES : Z := 0x84F9.
Definition GL_BGRA_EXT : Z := 0x80E1.
Definition GL_FALSE : Z := 0.
Definition GL_TRIANGLES : Z := 0x0004.
Definition GL_COLOR_BUFFER_BIT : Z := 0x4000.
Definition GL_UNPACK_ALIGNMENT : Z := 0x0CF5.
Definition GL_TEXTURE_2D : Z := 0x0DE1.
Definition GL_NEAREST : Z := 0x2600.
Definition GL_TEXTURE_MAG_FILTER : Z := 0x2800.
Definition GL_TEXTURE_MIN_FILTER : Z := 0x2801.
Definition GL_TEXTURE_WRAP_S : Z := 0x2802.
Definition GL_TEXTURE_WRAP_T : Z := 0x2803.
Definition GL_CLAMP_TO_EDGE : Z := 0x812F.
Definition GL_TEXTURE0 : Z := 0x84C0.
Definition GL_FRAGMENT_SHADER : Z := 0x8B30.
Definition GL_VERTEX_SHADER : Z := 0x8B31.
Definition GL_COMPILE_STATUS : Z := 0x8B81.
Definition GL_LINK_STATUS : Z := 0x8B82.
Definition GL_INFO_LOG_LENGTH : Z := 0x8B84.
Definition GL_IMPLEMENTATION_COLOR_READ_TYPE : Z := 0x8B9A.
Definition GL_IMPLEMENTATION_COLOR_READ_FORMAT : Z := 0x8B9B.
Definition GL_COLOR_ATTACHMENT0 : Z := 0x8CE0.
Definition GL_FRAMEBUFFER : Z := 0x8D40.
Definition GL_INVALID_VALUE : Z := 0x0501.
Definition GL_OUT_OF_MEMORY : Z := 0x0505.

Definition EGL_FALSE : Z := 0.
Definition EGL_DEFAULT_DISPLAY : Z := 0.
Definition EGL_NO_CONTEXT : Z := 0.
Definition EGL_PBUFFER_BIT : Z := 0x0001.
Definition EGL_OPENGL_ES3_BIT : Z := 0x0040.
Definition EGL_SUCCESS : Z := 0x3000.
Definition EGL_BAD_CONFIG : Z := 0x3005.
Definition EGL_BAD_CONTEXT : Z := 0x3006.
Definition EGL_BAD_SURFACE : Z := 0x300D.
Definition EGL_BLUE_SIZE : Z := 0x3022.
Definition EGL_GREEN_SIZE : Z := 0x3023.
Definition EGL_RED_SIZE : Z := 0x3024.
Definition EGL_SURFACE_TYPE : Z := 0x3033.
Definition EGL_NONE : Z := 0x3038.
Definition EGL_RENDERABLE_TYPE : Z := 0x3040.
Definition EGL_HEIGHT : Z := 0x3056.
Definition EGL_WIDTH : Z := 0x3057.
Definition EGL_READ : Z := 0x305A.
Definition EGL_CONTEXT_CLIENT_VERSION : Z := 0x3098.
Definition EGL_OPENGL_ES_API : Z := 0x30A0.
End GLconst.
Import GLconst.

(* ================================================================== *)
(** ** Lines written to the standard output *)

Inductive printed : Type :=
| Text (s : string)
    (** a [printf] of a literal, or of a line whose arguments are thread
        ids and pointers, named by its format string as the source
        writes it (escape sequences unexpanded) *)
| EGLErrorAt (error : Z) (msg : string)
    (** [printf("EGL error %#04x at %s\n", error, msg)] *)
| OpenGLErrorAt (error : Z) (msg : string)
    (** [printf("OpenGL error %#04x at %s\n", error, msg)] *)
| UnknownPixelSize (width height format type : Z)
    (** [printf("unknown pixel size: width: %d height: %d format: %d type: %d\n", ...)] *)
| ErrorCompilingShader (infoLog : string)
    (** [printf("Error compiling shader:\n%s\n", infoLog)] *)
| ErrorLinkingProgram (infoLog : string)
    (** [printf("Error linking program:\n%s\n", infoLog)] *)
| SupportColorFormat (format type : Z)
    (** [printf("support color format %#04x type %#04x\n", format, type)] *).

(* ================================================================== *)
(** ** The pixel format helper of offscreen_egl.cpp *)

Module PixelFormat.

(** [case] labels of a [switch]: membership of the scrutinee in a list. *)
Definition case_of (x : Z) (labels : list Z) : bool :=
  existsb (Z.eqb x) labels.

Definition byte_types : list Z := [GL_BYTE; GL_UNSIGNED_BYTE].
Definition short_types : list Z :=
  [GL_SHORT; GL_UNSIGNED_SHORT; GL_UNSIGNED_SHORT_5_6_5;
   GL_UNSIGNED_SHORT_4_4_4_4; GL_UNSIGNED_SHORT_5_5_5_1;
   GL_RGB565_OES; GL_RGB5_A1_OES; GL_RGBA4_OES].
Definition int_types : list Z :=
  [GL_INT; GL_UNSIGNED_INT; GL_FLOAT; GL_FIXED; GL_UNSIGNED_INT_24_8_OES].

Definition formats1 : list Z :=
  [GL_ALPHA; GL_LUMINANCE; GL_DEPTH_COMPONENT; GL_DEPTH_STENCIL_OES].
Definition formats2 : list Z := [GL_LUMINANCE_ALPHA].
Definition formats3 : list Z := [GL_RGB].
Definition formats4 : list Z := [GL_RGBA; GL_BGRA_EXT].

Definition unknown_type_msg : printed :=
  Text "glUtilsPixelBitSize: unknown pixel type - assuming pixel data 0\n".
Definition unknown_format_msg : printed :=
  Text "glUtilsPixelBitSize: unknown pixel format...\n".

(** [int glUtilsPixelBitSize(GLenum format, GLenum type)]: the value
    returned and the lines printed. *)
Definition glUtilsPixelBitSize (format type : Z) : Z * list printed :=
  let components := 0 in
  let componentsize := 0 in
  let pixelsize := 0 in
  let '(componentsize, pixelsize, out) :=
    if case_of type byte_types then (8, pixelsize, [])
    else if case_of type short_types then (componentsize, 16, [])
    else if case_of type int_types then (componentsize, 32, [])
    else (0, pixelsize, [unknown_type_msg]) in
  if pixelsize =? 0 then
    let '(components, out) :=
      if case_of format formats1 then (1, out)
      else if case_of format formats2 then (2, out)
      else if case_of format formats3 then (3, out)
      else if case_of format formats4 then (4, out)
      else (0, out ++ [unknown_format_msg]) in
    (int_mul components componentsize, out)
  else (pixelsize, out).

(** [GLsizei pixelDataSize(GLsizei width, GLsizei height, GLenum format,
    GLenum type)]: the value returned and the lines printed. *)
Definition pixelDataSize (width height format type : Z) : Z * list printed :=
  if (width <=? 0) || (height <=? 0) then (0, [])
  else
    let '(bits, out) := glUtilsPixelBitSize format type in
    let pixelsize := Z.shiftr bits 3 in
    let alignment := 4 in
    let out :=
      if pixelsize =? 0
      then out ++ [UnknownPixelSize width height format type]
      else out in
    let linesize := to_size_t (int_mul pixelsize width) in
    let aligned_linesize :=
      to_size_t
        (int_mul (to_int (size_div linesize (to_size_t alignment))) alignment) in
    let aligned_linesize :=
      if aligned_linesize <? linesize
      then size_add aligned_linesize (to_size_t alignment)
      else aligned_linesize in
    (to_int (size_mul aligned_linesize (to_size_t height)), out).

(** The readback buffer sizing written inline in the render paths
    ([main] of offscreen_egl.cpp, [thread_func_a] and [thread_func_b] of
    multithreads.cpp):
    [stride = nr_channels * width;
     stride += (stride % 4) ? (4 - stride % 4) : 0;
     bufferSize = stride * height]. *)
Definition readback_stride (width : Z) : Z :=
  let nr_channels := 4 in
  let stride := int_mul nr_channels width in
  int_add stride
    (if negb (int_rem stride 4 =? 0) then int_sub 4 (int_rem stride 4) else 0).

Definition readback_bufferSize (width height : Z) : Z :=
  int_mul (readback_stride width) height.

(** The stride that [pixelDataSize] computes for a row, as the
    specification words it: the raw line size rounded up to the next
    multiple of 4. *)
Definition round_up4 (line : Z) : Z := 4 * ((line + 3) / 4).

Definition smallest_multiple_of_4_above (line aligned : Z) : Prop :=
  (4 | aligned) /\ line <= aligned /\
  forall m, (4 | m) -> line <= m -> aligned <= m.

End PixelFormat.
Import PixelFormat.


(* ================================================================== *)
(** ** Calls into the driver, and the state of one thread of control *)

Inductive API : Type := EGL | GL | SYS.

(** Arguments of a recorded call.  Output pointers are left out: what the
    callee stores through them is part of its [response]. *)
Inductive arg : Type :=
| Int (z : Z)
| Str (s : string)
| Ints (l : list Z)        (** an [EGLint]/[GLushort] array *)
| Flts (l : list Q)        (** a [GLfloat] array *)
| Flt (q : Q)
| Null
| Buf (name : string).     (** the address of a host buffer *)

Coercion Int : Z >-> arg.

Record call : Type := Call { api : API; fn : string; args : list arg }.

(** What the driver answers to one call: the value returned, the values
    stored through output pointers, the text stored in a character buffer
    and the error the call raises, if any. *)
Record response : Type :=
  Resp { ret : Z; outs : list Z; text : string; error : option Z }.

Definition out (i : nat) (r : response) : Z := nth i (outs r) 0.
Definition ignore (r : response) : unit := tt.

Definition no_error (a : API) : Z :=
  match a with EGL => EGL_SUCCESS | GL => GL_NO_ERROR | SYS => 0 end.

(** The error code a call leaves behind. *)
Definition raised (a : API) (r : response) : Z :=
  match error r with Some e => e | None => no_error a end.

(** The test [if (!f(...))] on the [EGLBoolean] that [f] returned. *)
Definition egl_true (r : response) : bool := negb (ret r =? EGL_FALSE).

(** The driver, seen from one thread: its answer to the thread's n-th call. *)
Definition Driver : Type := nat -> response.

(** Calls made so far (most recent first), lines printed so far (most
    recent first), the thread's EGL error (read and reset by
    [eglGetError]) and the error flag of its GL context (set by the first
    failing call, read and reset by [glGetError]). *)
Record World : Type :=
  mkWorld { trace : list (call * response);
            stdout : list printed;
            egl_error : Z;
            gl_error : Z }.

Definition init_world : World := mkWorld [] [] EGL_SUCCESS GL_NO_ERROR.

(** How a piece of code stops other than by reaching its end. *)
Inductive stop : Type :=
| Return (v : Z)       (** a [return] statement of the enclosing function *)
| Exited (code : Z)    (** [exit(code)]: the process ends *)
| Running              (** still executing when the fuel ran out *)
| Thrown.              (** an exception nothing catches: [std::terminate]
                           aborts the process *)

Inductive outcome (A : Type) : Type :=
| Normal (a : A)
| Abort (s : stop).
Arguments Normal {A} a.
Arguments Abort {A} s.

Definition M (A : Type) : Type := Driver -> World -> outcome A * World.

Definition ret_ {A} (a : A) : M A := fun _ w => (Normal a, w).

Definition bind {A B} (m : M A) (f : A -> M B) : M B :=
  fun d w =>
    match m d w with
    | (Normal a, w') => f a d w'
    | (Abort s, w') => (Abort s, w')
    end.

Declare Scope prog_scope.
Delimit Scope prog_scope with prog.
Notation "x <- m ;; k" := (bind m (fun x => k))
  (at level 100, m at next level, right associativity) : prog_scope.
Notation "m ;; k" := (bind m (fun _ => k))
  (at level 100, right associativity) : prog_scope.
Notation "' p <- m ;; k" := (bind m (fun x => let 'p := x in k))
  (at level 100, p pattern, m at next level, right associativity) : prog_scope.
Local Open Scope prog_scope.

Definition return_ {A} (v : Z) : M A := fun _ w => (Abort (Return v), w).
Definition exit {A} (code : Z) : M A := fun _ w => (Abort (Exited code), w).
Definition out_of_fuel {A} : M A := fun _ w => (Abort Running, w).
Definition throw {A} : M A := fun _ w => (Abort Thrown, w).

(** A called function: its [return v] is the value of the call. *)
Definition fn_body (body : M Z) : M Z :=
  fun d w =>
    match body d w with
    | (Abort (Return v), w') => (Normal v, w')
    | r => r
    end.

Definition when (c : bool) (m : M unit) : M unit := if c then m else ret_ tt.

Definition printf (p : printed) : M unit :=
  fun _ w => (Normal tt, mkWorld (trace w) (p :: stdout w) (egl_error w) (gl_error w)).

(** [std::vector<T> v(count)] with [count] an [int]: a negative count
    converts to a [size_t] above [max_size()], and the constructor throws
    [std::length_error]. *)
Definition std_vector (count : Z) : M unit := when (count <? 0) throw.

Definition driver_call {A} (a : API) (f : string) (xs : list arg)
    (proj : response -> A) : M A :=
  fun d w =>
    let r := d (List.length (trace w)) in
    (Normal (proj r),
     mkWorld ((Call a f xs, r) :: trace w) (stdout w)
       (match a with EGL => raised EGL r | _ => egl_error w end)
       (match a with
        | GL => if gl_error w =? GL_NO_ERROR then raised GL r else gl_error w
        | _ => gl_error w
        end)).

Definition egl {A} := @driver_call A EGL.
Definition gl {A} := @driver_call A GL.
Definition sys {A} := @driver_call A SYS.

Definition eglGetError : M Z :=
  fun _ w => (Normal (egl_error w),
              mkWorld (trace w) (stdout w) EGL_SUCCESS (gl_error w)).

Definition glGetError : M Z :=
  fun _ w => (Normal (gl_error w),
              mkWorld (trace w) (stdout w) (egl_error w) GL_NO_ERROR).

(** [while (cond) body], unrolled at most [fuel] times. *)
Fixpoint while (fuel : nat) (cond : M bool) (body : M unit) : M unit :=
  match fuel with
  | O => out_of_fuel
  | S fuel' =>
      c <- cond ;;
      if c then (body ;; while fuel' cond body) else ret_ tt
  end.

Definition calls (w : World) : list call := rev (map fst (trace w)).
Definition names (w : World) : list string := map fn (calls w).
Definition output (w : World) : list printed := rev (stdout w).

(* ================================================================== *)
(** ** offscreen_egl.cpp: one context, one render-and-readback pass *)

Module Offscreen.

(** [void assertOpenGLError(const std::string& msg)] *)
Definition assertOpenGLError (msg : string) : M unit :=
  error <- glGetError ;;
  when (negb (error =? GL_NO_ERROR)) (printf (OpenGLErrorAt error msg)).

(** [void assertEGLError(const std::string& msg)] *)
Definition assertEGLError (msg : string) : M unit :=
  error <- eglGetError ;;
  when (negb (error =? EGL_SUCCESS)) (printf (EGLErrorAt error msg)).

(** [GLuint LoadShader(GLenum type, const char *shaderSrc)] *)
Definition LoadShader (type : Z) (shaderSrc : string) : M Z :=
  fn_body (
    shader <- gl "glCreateShader" [Int type] ret ;;
    when (shader =? 0) (return_ 0) ;;
    gl "glShaderSource" [Int shader; Int 1; Str shaderSrc; Null] ignore ;;
    gl "glCompileShader" [Int shader] ignore ;;
    compiled <- gl "glGetShaderiv" [Int shader; Int GL_COMPILE_STATUS] (out 0) ;;
    when (compiled =? 0) (
      infoLen <- gl "glGetShaderiv" [Int shader; Int GL_INFO_LOG_LENGTH] (out 0) ;;
      when (1 <? infoLen) (
        infoLog <- gl "glGetShaderInfoLog" [Int shader; Int infoLen; Null] text ;;
        printf (ErrorCompilingShader infoLog)) ;;
      gl "glDeleteShader" [Int shader] ignore ;;
      return_ 0) ;;
    return_ shader).

(** The adjacent literals of the source, concatenated; each [\n] of the
    source is a line break here. *)
Definition vShaderStr : string :=
"#version 300 es                          
layout(location = 0) in vec4 vPosition;  
void main()                              
{                                        
   gl_Position = vPosition;              
}                                        
".

Definition fShaderStr : string :=
"#version 300 es                              
precision mediump float;                     
out vec4 fragColor;                          
void main()                                  
{                                            
   fragColor = vec4 ( 1.0, 0.0, 0.0, 1.0 );  
}                                            
".

(** [GLuint init_triangle()] *)
Definition init_triangle : M Z :=
  fn_body (
    vertexShader <- LoadShader GL_VERTEX_SHADER vShaderStr ;;
    fragmentShader <- LoadShader GL_FRAGMENT_SHADER fShaderStr ;;
    programObject <- gl "glCreateProgram" [] ret ;;
    when (programObject =? 0) (return_ 0) ;;
    gl "glAttachShader" [Int programObject; Int vertexShader] ignore ;;
    gl "glAttachShader" [Int programObject; Int fragmentShader] ignore ;;
    gl "glLinkProgram" [Int programObject] ignore ;;
    linked <- gl "glGetProgramiv" [Int programObject; Int GL_LINK_STATUS] (out 0) ;;
    when (linked =? 0) (
      infoLen <- gl "glGetProgramiv" [Int programObject; Int GL_INFO_LOG_LENGTH] (out 0) ;;
      when (1 <? infoLen) (
        infoLog <- gl "glGetProgramInfoLog" [Int programObject; Int infoLen; Null] text ;;
        printf (ErrorLinkingProgram infoLog)) ;;
      gl "glDeleteProgram" [Int programObject] ignore ;;
      return_ 0) ;;
    return_ programObject).

Definition vVertices : list Q :=
  [0; 1 # 2; 0;  - (1 # 2); - (1 # 2); 0;  1 # 2; - (1 # 2); 0]%Q.

(** [void draw_triangle(GLsizei width, GLsizei height)] *)
Definition draw_triangle (width height : Z) : M unit :=
  program <- init_triangle ;;
  gl "glViewport" [Int 0; Int 0; Int width; Int height] ignore ;;
  gl "glClear" [Int GL_COLOR_BUFFER_BIT] ignore ;;
  gl "glUseProgram" [Int program] ignore ;;
  gl "glVertexAttribPointer"
     [Int 0; Int 3; Int GL_FLOAT; Int GL_FALSE; Int 0; Flts vVertices] ignore ;;
  gl "glEnableVertexAttribArray" [Int 0] ignore ;;
  gl "glDrawArrays" [Int GL_TRIANGLES; Int 0; Int 3] ignore.

(** Locals of [main] that are initialised once and never assigned. *)
Definition width : Z := 512.
Definition height : Z := 512.
Definition es_version : Z := 3.
Definition egl_renderable_type : Z := EGL_OPENGL_ES3_BIT.

Definition configAttribs : list Z :=
  [EGL_SURFACE_TYPE; EGL_PBUFFER_BIT;
   EGL_RED_SIZE; 8;
   EGL_GREEN_SIZE; 8;
   EGL_BLUE_SIZE; 8;
   EGL_RENDERABLE_TYPE; egl_renderable_type;
   EGL_NONE].
Definition contextAttribs : list Z :=
  [EGL_CONTEXT_CLIENT_VERSION; es_version; EGL_NONE].
Definition pbufAttribs : list Z :=
  [EGL_WIDTH; width; EGL_HEIGHT; height; EGL_NONE].

(** [main], lines 301-353: EGL initialization and context creation.
    Yields [display], [context] and [surface]. *)
Definition main_setup : M (Z * Z * Z) :=
  display <- egl "eglGetDisplay" [Int EGL_DEFAULT_DISPLAY] ret ;;
  assertEGLError "eglGetDisplay" ;;
  egl "eglInitialize" [Int display; Null; Null] ignore ;;
  assertEGLError "eglInitialize" ;;
  allConfigCount <- egl "eglGetConfigs" [Int display; Null; Int 0] (out 0) ;;
  assertEGLError "eglGetConfigs" ;;
  std_vector allConfigCount ;;
  r <- egl "eglChooseConfig"
         [Int display; Ints configAttribs; Buf "defaultConfigs";
          Int (to_int allConfigCount)] id ;;
  let num_config := out 1 r in
  when (negb (egl_true r) || ((num_config =? 0) || (allConfigCount <? num_config))) (
    assertEGLError "eglChooseConfig" ;;
    return_ 0) ;;
  r <- egl "eglChooseConfig"
         [Int display; Ints configAttribs; Buf "config"; Int 1] id ;;
  let config := out 0 r in
  let num_config := out 1 r in
  when (negb (egl_true r) || (num_config =? 0)) (
    assertEGLError "eglChooseConfig" ;;
    return_ 0) ;;
  egl "eglBindAPI" [Int EGL_OPENGL_ES_API] ignore ;;
  assertEGLError "eglBindAPI" ;;
  context <- egl "eglCreateContext"
               [Int display; Int config; Int EGL_NO_CONTEXT; Ints contextAttribs] ret ;;
  assertEGLError "eglCreateContext" ;;
  surface <- egl "eglCreatePbufferSurface"
               [Int display; Int config; Ints pbufAttribs] ret ;;
  assertEGLError "eglCreatePbufferSurface" ;;
  egl "eglMakeCurrent" [Int display; Int surface; Int surface; Int context] ignore ;;
  assertEGLError "eglMakeCurrent" ;;
  ret_ (display, context, surface).

(** [main], lines 358-387: the framebuffer and its colour attachment.
    Yields [frameBuffer] and [tex]. *)
Definition main_render_target : M (Z * Z) :=
  frameBuffer <- gl "glGenFramebuffers" [Int 1] (out 0) ;;
  gl "glBindFramebuffer" [Int GL_FRAMEBUFFER; Int frameBuffer] ignore ;;
  assertOpenGLError "glBindFramebuffer" ;;
  tex <- gl "glGenTextures" [Int 1] (out 0) ;;
  gl "glBindTexture" [Int GL_TEXTURE_2D; Int tex] ignore ;;
  gl "glTexImage2D"
     [Int GL_TEXTURE_2D; Int 0; Int GL_RGB; Int width; Int height; Int 0;
      Int GL_RGB; Int GL_UNSIGNED_BYTE; Null] ignore ;;
  assertOpenGLError "glTexImage2D" ;;
  gl "glTexParameteri" [Int GL_TEXTURE_2D; Int GL_TEXTURE_MIN_FILTER; Int GL_NEAREST] ignore ;;
  assertOpenGLError "glTexParameteri GL_TEXTURE_MIN_FILTER" ;;
  gl "glTexParameteri" [Int GL_TEXTURE_2D; Int GL_TEXTURE_MAG_FILTER; Int GL_NEAREST] ignore ;;
  assertOpenGLError "glTexParameteri GL_TEXTURE_MAG_FILTER" ;;
  gl "glTexParameteri" [Int GL_TEXTURE_2D; Int GL_TEXTURE_WRAP_S; Int GL_CLAMP_TO_EDGE] ignore ;;
  assertOpenGLError "glTexParameteri GL_TEXTURE_WRAP_S" ;;
  gl "glTexParameteri" [Int GL_TEXTURE_2D; Int GL_TEXTURE_WRAP_T; Int GL_CLAMP_TO_EDGE] ignore ;;
  assertOpenGLError "glTexParameteri GL_TEXTURE_WRAP_T" ;;
  gl "glBindTexture" [Int GL_TEXTURE_2D; Int 0] ignore ;;
  assertOpenGLError "glBindTexture" ;;
  gl "glFramebufferTexture2D"
     [Int GL_FRAMEBUFFER; Int GL_COLOR_ATTACHMENT0; Int GL_TEXTURE_2D; Int tex; Int 0] ignore ;;
  assertOpenGLError "glFramebufferTexture2D" ;;
  ret_ (frameBuffer, tex).

(** [main], lines 393-412: the native read format, then the draw. *)
Definition main_render : M unit :=
  format <- gl "glGetIntegerv" [Int GL_IMPLEMENTATION_COLOR_READ_FORMAT] (out 0) ;;
  type <- gl "glGetIntegerv" [Int GL_IMPLEMENTATION_COLOR_READ_TYPE] (out 0) ;;
  printf (SupportColorFormat format type) ;;
  draw_triangle width height.

(** [main], lines 417-434: readback and PNG output. *)
Definition main_readback (frameBuffer : Z) : M unit :=
  let nr_channels := 4 in
  let stride := readback_stride width in
  let bufferSize := readback_bufferSize width height in
  std_vector bufferSize ;;
  gl "glBindFramebuffer" [Int GL_FRAMEBUFFER; Int frameBuffer] ignore ;;
  assertOpenGLError "glBindFramebuffer" ;;
  gl "glReadPixels"
     [Int 0; Int 0; Int width; Int height; Int GL_RGBA; Int GL_UNSIGNED_BYTE;
      Buf "buffer"] ignore ;;
  assertOpenGLError "glReadPixels" ;;
  sys "stbi_write_png"
      [Str "img.png"; Int width; Int height; Int nr_channels; Buf "buffer";
       Int stride] ignore ;;
  gl "glBindFramebuffer" [Int GL_FRAMEBUFFER; Int 0] ignore.

(** [main], lines 438-448: "Destroy context". *)
Definition main_teardown (display context surface frameBuffer tex : Z) : M unit :=
  gl "glDeleteFramebuffers" [Int 1; Ints [frameBuffer]] ignore ;;
  gl "glDeleteTextures" [Int 1; Ints [tex]] ignore ;;
  egl "eglDestroySurface" [Int display; Int surface] ignore ;;
  assertEGLError "eglDestroySurface" ;;
  egl "eglDestroyContext" [Int display; Int context] ignore ;;
  assertEGLError "eglDestroyContext" ;;
  egl "eglTerminate" [Int display] ignore ;;
  assertEGLError "eglTerminate".

(** [int main()] *)
Definition main : M Z :=
  '(display, context, surface) <- main_setup ;;
  '(frameBuffer, tex) <- main_render_target ;;
  main_render ;;
  main_readback frameBuffer ;;
  main_teardown display context surface frameBuffer tex ;;
  return_ 0.

End Offscreen.

(* ================================================================== *)
(** ** multithreads.cpp: two sessions on one display connection *)

Module Multithreads.

(** [void assertOpenGLError(const std::string& msg)] *)
Definition assertOpenGLError (msg : string) : M unit :=
  error <- glGetError ;;
  when (negb (error =? GL_NO_ERROR)) (
    printf (OpenGLErrorAt error msg) ;;
    exit (-1)).

(** [void assertEGLError(const std::string& msg)] *)
Definition assertEGLError (msg : string) : M unit :=
  error <- eglGetError ;;
  when (negb (error =? EGL_SUCCESS)) (
    printf (EGLErrorAt error msg) ;;
    exit (-1)).

(** [GLuint LoadShader(GLenum type, const char *shaderSrc)] *)
Definition LoadShader (type : Z) (shaderSrc : string) : M Z :=
  fn_body (
    shader <- gl "glCreateShader" [Int type] ret ;;
    when (shader =? 0) (return_ 0) ;;
    gl "glShaderSource" [Int shader; Int 1; Str shaderSrc; Null] ignore ;;
    gl "glCompileShader" [Int shader] ignore ;;
    compiled <- gl "glGetShaderiv" [Int shader; Int GL_COMPILE_STATUS] (out 0) ;;
    when (compiled =? 0) (
      infoLen <- gl "glGetShaderiv" [Int shader; Int GL_INFO_LOG_LENGTH] (out 0) ;;
      when (1 <? infoLen) (
        infoLog <- gl "glGetShaderInfoLog" [Int shader; Int infoLen; Null] text ;;
        printf (ErrorCompilingShader infoLog)) ;;
      gl "glDeleteShader" [Int shader] ignore ;;
      return_ 0) ;;
    return_ shader).

(** [GLuint CompileProgram(const char* vsSource, const char* fsSource)] *)
Definition CompileProgram (vsSource fsSource : string) : M Z :=
  fn_body (
    vertexShader <- LoadShader GL_VERTEX_SHADER vsSource ;;
    fragmentShader <- LoadShader GL_FRAGMENT_SHADER fsSource ;;
    programObject <- gl "glCreateProgram" [] ret ;;
    when (programObject =? 0) (return_ 0) ;;
    gl "glAttachShader" [Int programObject; Int vertexShader] ignore ;;
    gl "glAttachShader" [Int programObject; Int fragmentShader] ignore ;;
    gl "glLinkProgram" [Int programObject] ignore ;;
    linked <- gl "glGetProgramiv" [Int programObject; Int GL_LINK_STATUS] (out 0) ;;
    when (linked =? 0) (
      infoLen <- gl "glGetProgramiv" [Int programObject; Int GL_INFO_LOG_LENGTH] (out 0) ;;
      when (1 <? infoLen) (
        infoLog <- gl "glGetProgramInfoLog" [Int programObject; Int infoLen; Null] text ;;
        printf (ErrorLinkingProgram infoLog)) ;;
      gl "glDeleteProgram" [Int programObject] ignore ;;
      return_ 0) ;;
    return_ programObject).

Definition vVertices : list Q :=
  [0; 1 # 2; 0;  - (1 # 2); - (1 # 2); 0;  1 # 2; - (1 # 2); 0]%Q.

(** The adjacent literals of the source, concatenated; each [\n] of the
    source is a line break here. *)
Definition vShaderStr : string :=
"#version 300 es                          
layout(location = 0) in vec4 vPosition;  
void main()                              
{                                        
   gl_Position = vPosition;              
}                                        
".

Definition fShaderStr : string :=
"#version 300 es                              
precision mediump float;                     
out vec4 fragColor;                          
void main()                                  
{                                            
   fragColor = vec4 ( 1.0, 0.0, 0.0, 1.0 );  
}                                            
".

(** [void draw_triangle(GLsizei width, GLsizei height)] *)
Definition draw_triangle (width height : Z) : M unit :=
  program <- CompileProgram vShaderStr fShaderStr ;;
  gl "glViewport" [Int 0; Int 0; Int width; Int height] ignore ;;
  gl "glClear" [Int GL_COLOR_BUFFER_BIT] ignore ;;
  gl "glUseProgram" [Int program] ignore ;;
  gl "glVertexAttribPointer"
     [Int 0; Int 3; Int GL_FLOAT; Int GL_FALSE; Int 0; Flts vVertices] ignore ;;
  gl "glEnableVertexAttribArray" [Int 0] ignore ;;
  gl "glDrawArrays" [Int GL_TRIANGLES; Int 0; Int 3] ignore.

(** [struct GLContext] *)
Record GLContext : Type :=
  mkGLContext { dpy : Z; config : Z; width : Z; height : Z }.

(** [GLuint CreateSimpleTexture2D()] *)
Definition CreateSimpleTexture2D : M Z :=
  fn_body (
    gl "glPixelStorei" [Int GL_UNPACK_ALIGNMENT; Int 1] ignore ;;
    texture <- gl "glGenTextures" [Int 1] (out 0) ;;
    gl "glBindTexture" [Int GL_TEXTURE_2D; Int texture] ignore ;;
    let width := 2 in
    let height := 2 in
    let pixels := [255; 0; 0;  0; 255; 0;  0; 0; 255;  255; 255; 0] in
    gl "glTexImage2D"
       [Int GL_TEXTURE_2D; Int 0; Int GL_RGB; Int width; Int height; Int 0;
        Int GL_RGB; Int GL_UNSIGNED_BYTE; Ints pixels] ignore ;;
    gl "glTexParameteri" [Int GL_TEXTURE_2D; Int GL_TEXTURE_MIN_FILTER; Int GL_NEAREST] ignore ;;
    gl "glTexParameteri" [Int GL_TEXTURE_2D; Int GL_TEXTURE_MAG_FILTER; Int GL_NEAREST] ignore ;;
    return_ texture).

Definition contextAttribs : list Z := [EGL_CONTEXT_CLIENT_VERSION; 2; EGL_NONE].
Definition pbufAttribs (width height : Z) : list Z :=
  [EGL_WIDTH; width; EGL_HEIGHT; height; EGL_NONE].

(** The framebuffer and its colour attachment, as both thread functions
    create them (lines 305-334 and 492-521).  Yields [frameBuffer] and
    [tex]. *)
Definition render_target (width height : Z) : M (Z * Z) :=
  frameBuffer <- gl "glGenFramebuffers" [Int 1] (out 0) ;;
  gl "glBindFramebuffer" [Int GL_FRAMEBUFFER; Int frameBuffer] ignore ;;
  assertOpenGLError "glBindFramebuffer" ;;
  tex <- gl "glGenTextures" [Int 1] (out 0) ;;
  gl "glBindTexture" [Int GL_TEXTURE_2D; Int tex] ignore ;;
  gl "glTexImage2D"
     [Int GL_TEXTURE_2D; Int 0; Int GL_RGB; Int width; Int height; Int 0;
      Int GL_RGB; Int GL_UNSIGNED_BYTE; Null] ignore ;;
  assertOpenGLError "glTexImage2D" ;;
  gl "glTexParameteri" [Int GL_TEXTURE_2D; Int GL_TEXTURE_MIN_FILTER; Int GL_NEAREST] ignore ;;
  assertOpenGLError "glTexParameteri GL_TEXTURE_MIN_FILTER" ;;
  gl "glTexParameteri" [Int GL_TEXTURE_2D; Int GL_TEXTURE_MAG_FILTER; Int GL_NEAREST] ignore ;;
  assertOpenGLError "glTexParameteri GL_TEXTURE_MAG_FILTER" ;;
  gl "glTexParameteri" [Int GL_TEXTURE_2D; Int GL_TEXTURE_WRAP_S; Int GL_CLAMP_TO_EDGE] ignore ;;
  assertOpenGLError "glTexParameteri GL_TEXTURE_WRAP_S" ;;
  gl "glTexParameteri" [Int GL_TEXTURE_2D; Int GL_TEXTURE_WRAP_T; Int GL_CLAMP_TO_EDGE] ignore ;;
  assertOpenGLError "glTexParameteri GL_TEXTURE_WRAP_T" ;;
  gl "glBindTexture" [Int GL_TEXTURE_2D; Int 0] ignore ;;
  assertOpenGLError "glBindTexture" ;;
  gl "glFramebufferTexture2D"
     [Int GL_FRAMEBUFFER; Int GL_COLOR_ATTACHMENT0; Int GL_TEXTURE_2D; Int tex; Int 0] ignore ;;
  assertOpenGLError "glFramebufferTexture2D" ;;
  ret_ (frameBuffer, tex).

Definition kVS : string :=
"attribute vec4 a_position;
attribute vec2 a_texCoord;
varying vec2 v_texCoord;
void main()
{
    gl_Position = a_position;
    v_texCoord = a_texCoord;
}".

Definition kFS : string :=
"precision mediump float;
varying vec2 v_texCoord;
uniform sampler2D s_texture;
void main()
{
    gl_FragColor = texture2D(s_texture, v_texCoord);
}".

(** The locals of [thread_func_a] that its loop and its teardown use. *)
Record locals_a : Type :=
  mkLocalsA { surface : Z; context : Z; frameBuffer : Z; tex : Z;
              stride : Z; mProgram : Z; mPositionLoc : Z; mTexCoordLoc : Z;
              mSamplerLoc : Z; mTexture : Z }.

(** [thread_func_a], lines 277-300: surface, context, activation. *)
Definition thread_a_setup (glCtx : GLContext) : M (Z * Z) :=
  surface <- egl "eglCreatePbufferSurface"
               [Int (dpy glCtx); Int (config glCtx);
                Ints (pbufAttribs (width glCtx) (height glCtx))] ret ;;
  assertEGLError "eglCreatePbufferSurface" ;;
  context <- egl "eglCreateContext"
               [Int (dpy glCtx); Int (config glCtx); Int EGL_NO_CONTEXT;
                Ints contextAttribs] ret ;;
  assertEGLError "eglCreateContext" ;;
  sys "gettid" [] ignore ;;
  printf (Text "thread %lx display %p context %p surface %p\n") ;;
  ok <- egl "eglMakeCurrent"
          [Int (dpy glCtx); Int surface; Int surface; Int context] egl_true ;;
  when (negb ok) (
    assertEGLError "eglMakeCurrent" ;;
    printf (Text "failed to create context\n") ;;
    return_ 0) ;;
  ret_ (surface, context).

(** [thread_func_a], lines 248-380: everything before the loop. *)
Definition thread_a_init (glCtx : GLContext) : M locals_a :=
  sys "gettid" [] ignore ;;
  printf (Text "Thread inside %#x display %p config %p width %d height %d\n") ;;
  '(surface, context) <- thread_a_setup glCtx ;;
  '(frameBuffer, tex) <- render_target (width glCtx) (height glCtx) ;;
  gl "glBindFramebuffer" [Int GL_FRAMEBUFFER; Int 0] ignore ;;
  let stride := readback_stride (width glCtx) in
  let bufferSize := readback_bufferSize (width glCtx) (height glCtx) in
  std_vector bufferSize ;;
  mProgram <- CompileProgram kVS kFS ;;
  when (mProgram =? 0) (return_ 0) ;;
  mPositionLoc <- gl "glGetAttribLocation" [Int mProgram; Str "a_position"] ret ;;
  mTexCoordLoc <- gl "glGetAttribLocation" [Int mProgram; Str "a_texCoord"] ret ;;
  mSamplerLoc <- gl "glGetUniformLocation" [Int mProgram; Str "s_texture"] ret ;;
  mTexture <- CreateSimpleTexture2D ;;
  gl "glClearColor" [Flt 0; Flt 0; Flt 0; Flt 0] ignore ;;
  ret_ (mkLocalsA surface context frameBuffer tex stride mProgram
          mPositionLoc mTexCoordLoc mSamplerLoc mTexture).

Definition vertices : list Q :=
  [- (1 # 2); 1 # 2; 0;       0; 0;
   - (1 # 2); - (1 # 2); 0;   0; 1;
   1 # 2; - (1 # 2); 0;       1; 1;
   1 # 2; 1 # 2; 0;           1; 0]%Q.
Definition indices : list Z := [0; 1; 2; 0; 2; 3].
Definition sizeof_GLfloat : Z := 4.

(** [thread_func_a], lines 384-441: one pass of the loop body.  The
    attribute locations are [GLint]s handed to [GLuint] parameters. *)
Definition thread_a_pass (glCtx : GLContext) (l : locals_a) : M unit :=
  let nr_channels := 4 in
  gl "glBindFramebuffer" [Int GL_FRAMEBUFFER; Int (frameBuffer l)] ignore ;;
  assertOpenGLError "glBindFramebuffer" ;;
  gl "glViewport" [Int 0; Int 0; Int (width glCtx); Int (height glCtx)] ignore ;;
  gl "glClear" [Int GL_COLOR_BUFFER_BIT] ignore ;;
  gl "glUseProgram" [Int (mProgram l)] ignore ;;
  gl "glVertexAttribPointer"
     [Int (to_uint (mPositionLoc l)); Int 3; Int GL_FLOAT; Int GL_FALSE;
      Int (5 * sizeof_GLfloat); Flts vertices] ignore ;;
  gl "glVertexAttribPointer"
     [Int (to_uint (mTexCoordLoc l)); Int 2; Int GL_FLOAT; Int GL_FALSE;
      Int (5 * sizeof_GLfloat); Flts (skipn 3 vertices)] ignore ;;
  gl "glEnableVertexAttribArray" [Int (to_uint (mPositionLoc l))] ignore ;;
  gl "glEnableVertexAttribArray" [Int (to_uint (mTexCoordLoc l))] ignore ;;
  gl "glActiveTexture" [Int GL_TEXTURE0] ignore ;;
  gl "glBindTexture" [Int GL_TEXTURE_2D; Int (mTexture l)] ignore ;;
  gl "glUniform1i" [Int (mSamplerLoc l); Int 0] ignore ;;
  egl "eglGetCurrentDisplay" [] ignore ;;
  egl "eglGetCurrentSurface" [Int EGL_READ] ignore ;;
  egl "eglGetCurrentContext" [] ignore ;;
  sys "gettid" [] ignore ;;
  printf (Text "thread %lx display %p context %p surface %p\n") ;;
  gl "glDrawElements"
     [Int GL_TRIANGLES; Int 6; Int GL_UNSIGNED_SHORT; Ints indices] ignore ;;
  assertOpenGLError "glDrawElements" ;;
  gl "glBindTexture" [Int GL_TEXTURE_2D; Int 0] ignore ;;
  gl "glPixelStorei" [Int GL_UNPACK_ALIGNMENT; Int 1] ignore ;;
  assertOpenGLError "glPixelStorei" ;;
  gl "glReadPixels"
     [Int 0; Int 0; Int (width glCtx); Int (height glCtx); Int GL_RGBA;
      Int GL_UNSIGNED_BYTE; Buf "buffer"] ignore ;;
  assertOpenGLError "glReadPixels" ;;
  sys "stbi_write_png"
      [Str "img.png"; Int (width glCtx); Int (height glCtx); Int nr_channels;
       Buf "buffer"; Int (stride l)] ignore ;;
  gl "glBindFramebuffer" [Int GL_FRAMEBUFFER; Int 0] ignore ;;
  printf (Text "finish saving img.png\n").

(** [thread_func_a], lines 443-450: what follows the loop. *)
Definition thread_a_teardown (glCtx : GLContext) (l : locals_a) : M unit :=
  gl "glDeleteFramebuffers" [Int 1; Ints [frameBuffer l]] ignore ;;
  gl "glDeleteTextures" [Int 1; Ints [tex l]] ignore ;;
  gl "glDeleteProgram" [Int (mProgram l)] ignore ;;
  gl "glDeleteTextures" [Int 1; Ints [mTexture l]] ignore ;;
  egl "eglDestroySurface" [Int (dpy glCtx); Int (surface l)] ignore ;;
  assertEGLError "eglDestroySurface" ;;
  egl "eglDestroyContext" [Int (dpy glCtx); Int (context l)] ignore ;;
  assertEGLError "eglDestroyContext".

(** The loop of [thread_func_a]:
    [int mRunning = 1; while (mRunning) { ... }].  No statement of the
    function assigns [mRunning]. *)
Definition thread_a_loop (fuel : nat) (glCtx : GLContext) (l : locals_a) : M unit :=
  let mRunning := 1 in
  while fuel (ret_ (negb (mRunning =? 0))) (thread_a_pass glCtx l).

(** [void *thread_func_a(void *userdata)] *)
Definition thread_func_a (fuel : nat) (glCtx : GLContext) : M Z :=
  l <- thread_a_init glCtx ;;
  thread_a_loop fuel glCtx l ;;
  thread_a_teardown glCtx l ;;
  return_ 0.

(** [thread_func_b], lines 469-487: context, surface, activation. *)
Definition thread_b_setup (glCtx : GLContext) : M (Z * Z) :=
  context <- egl "eglCreateContext"
               [Int (dpy glCtx); Int (config glCtx); Int EGL_NO_CONTEXT;
                Ints contextAttribs] ret ;;
  assertEGLError "eglCreateContext" ;;
  surface <- egl "eglCreatePbufferSurface"
               [Int (dpy glCtx); Int (config glCtx);
                Ints (pbufAttribs (width glCtx) (height glCtx))] ret ;;
  assertEGLError "eglCreatePbufferSurface" ;;
  egl "eglMakeCurrent"
      [Int (dpy glCtx); Int surface; Int surface; Int context] ignore ;;
  assertEGLError "eglMakeCurrent" ;;
  ret_ (surface, context).

(** [thread_func_b], lines 533-556: draw, readback and PNG output. *)
Definition thread_b_render (glCtx : GLContext) (frameBuffer : Z) : M unit :=
  draw_triangle (width glCtx) (height glCtx) ;;
  let nr_channels := 4 in
  let stride := readback_stride (width glCtx) in
  let bufferSize := readback_bufferSize (width glCtx) (height glCtx) in
  std_vector bufferSize ;;
  gl "glBindFramebuffer" [Int GL_FRAMEBUFFER; Int frameBuffer] ignore ;;
  assertOpenGLError "glBindFramebuffer" ;;
  gl "glReadPixels"
     [Int 0; Int 0; Int (width glCtx); Int (height glCtx); Int GL_RGBA;
      Int GL_UNSIGNED_BYTE; Buf "buffer"] ignore ;;
  assertOpenGLError "glReadPixels" ;;
  sys "stbi_write_png"
      [Str "img2.png"; Int (width glCtx); Int (height glCtx); Int nr_channels;
       Buf "buffer"; Int stride] ignore ;;
  gl "glBindFramebuffer" [Int GL_FRAMEBUFFER; Int 0] ignore ;;
  printf (Text "finish saving img2.png\n").

(** [thread_func_b], lines 560-567: "Destroy context". *)
Definition thread_b_teardown (glCtx : GLContext)
    (surface context frameBuffer tex : Z) : M unit :=
  gl "glDeleteFramebuffers" [Int 1; Ints [frameBuffer]] ignore ;;
  gl "glDeleteTextures" [Int 1; Ints [tex]] ignore ;;
  egl "eglDestroySurface" [Int (dpy glCtx); Int surface] ignore ;;
  assertEGLError "eglDestroySurface" ;;
  egl "eglDestroyContext" [Int (dpy glCtx); Int context] ignore ;;
  assertEGLError "eglDestroyContext".

(** [void *thread_func_b(void *userdata)] *)
Definition thread_func_b (glCtx : GLContext) : M Z :=
  sys "gettid" [] ignore ;;
  printf (Text "Thread inside %#x display %p config %p\n") ;;
  '(surface, context) <- thread_b_setup glCtx ;;
  '(frameBuffer, tex) <- render_target (width glCtx) (height glCtx) ;;
  thread_b_render glCtx frameBuffer ;;
  thread_b_teardown glCtx surface context frameBuffer tex ;;
  return_ 0.

Definition configAttribs : list Z :=
  [EGL_SURFACE_TYPE; EGL_PBUFFER_BIT;
   EGL_RED_SIZE; 8;
   EGL_GREEN_SIZE; 8;
   EGL_BLUE_SIZE; 8;
   EGL_RENDERABLE_TYPE; EGL_OPENGL_ES3_BIT;
   EGL_NONE].

(** [main], lines 583-615: display and config.  Yields [display] and
    [config]. *)
Definition main_setup : M (Z * Z) :=
  display <- egl "eglGetDisplay" [Int EGL_DEFAULT_DISPLAY] ret ;;
  assertEGLError "eglGetDisplay" ;;
  egl "eglInitialize" [Int display; Null; Null] ignore ;;
  assertEGLError "eglInitialize" ;;
  allConfigCount <- egl "eglGetConfigs" [Int display; Null; Int 0] (out 0) ;;
  assertEGLError "eglGetConfigs" ;;
  std_vector allConfigCount ;;
  r <- egl "eglChooseConfig"
         [Int display; Ints configAttribs; Buf "defaultConfigs";
          Int (to_int allConfigCount)] id ;;
  let num_config := out 1 r in
  when (negb (egl_true r) || ((num_config =? 0) || (allConfigCount <? num_config))) (
    assertEGLError "eglChooseConfig" ;;
    return_ 0) ;;
  r <- egl "eglChooseConfig"
         [Int display; Ints configAttribs; Buf "config"; Int 1] id ;;
  let config := out 0 r in
  let num_config := out 1 r in
  when (negb (egl_true r) || (num_config =? 0)) (
    assertEGLError "eglChooseConfig" ;;
    return_ 0) ;;
  egl "eglBindAPI" [Int EGL_OPENGL_ES_API] ignore ;;
  assertEGLError "eglBindAPI" ;;
  ret_ (display, config).

(** [main], lines 660-668: the two sessions and the release of the
    display connection.  [sleep] takes an [unsigned int]. *)
Definition main_coordinate (display : Z) : M unit :=
  sys "pthread_create" [Buf "threadA"; Null; Str "thread_func_a"; Buf "glCtx"] ignore ;;
  sys "sleep" [Int (double_to_uint (1 # 2))] ignore ;;
  sys "pthread_create" [Buf "threadB"; Null; Str "thread_func_b"; Buf "glCtx"] ignore ;;
  sys "pthread_join" [Str "threadA"; Null] ignore ;;
  sys "pthread_join" [Str "threadB"; Null] ignore ;;
  egl "eglTerminate" [Int display] ignore ;;
  assertEGLError "eglTerminate".

(** [int main()].  The two thread functions receive [glCtx]; what each
    of them does is the computation [thread_func_a] / [thread_func_b]
    on the thread's own [World]. *)
Definition main : M Z :=
  let width := 512 in
  let height := 512 in
  '(display, config) <- main_setup ;;
  sys "gettid" [] ignore ;;
  printf (Text "main thread inside %#x display %p config %p\n") ;;
  format <- gl "glGetIntegerv" [Int GL_IMPLEMENTATION_COLOR_READ_FORMAT] (out 0) ;;
  type <- gl "glGetIntegerv" [Int GL_IMPLEMENTATION_COLOR_READ_TYPE] (out 0) ;;
  printf (SupportColorFormat format type) ;;
  let glCtx := mkGLContext display config width height in
  main_coordinate display ;;
  return_ 0.

End Multithreads.

(* ================================================================== *)
(** ** Running a thread of control, and two concrete drivers *)

Definition run {A} (m : M A) (d : Driver) : outcome A * World := m d init_world.

(** A call that succeeds: a non-null handle / [EGL_TRUE], one config
    (out of one), compile and link status true, no error. *)
Definition ok_resp : response := Resp 1 [1; 1] "" None.
(** A call that fails with [code]: a null handle / [EGL_FALSE], nothing
    stored. *)
Definition fail_resp (code : Z) : response := Resp 0 [0; 0] "" (Some code).

(** Every call succeeds. *)
Definition driver_ok : Driver := fun _ => ok_resp.
(** Every call succeeds except the thread's [k]-th one (counted from 0). *)
Definition failing_at (k : nat) (code : Z) : Driver :=
  fun n => if Nat.eqb n k then fail_resp code else ok_resp.

(* ================================================================== *)
(** ** Vocabulary of the statements *)

(** The types and formats that the two [switch]es of
    [glUtilsPixelBitSize] recognise. *)
Definition known_type (type : Z) : bool :=
  case_of type byte_types || case_of type short_types || case_of type int_types.

Definition known_format (format : Z) : bool :=
  case_of format formats1 || case_of format formats2 ||
  case_of format formats3 || case_of format formats4.

Definition diagnostic (p : printed) : Prop :=
  p = unknown_type_msg \/ p = unknown_format_msg.

(** *** Triples over the program monad

    [hoare d P m Q E]: run from a state satisfying [P] against driver [d],
    [m] ends normally in a state satisfying [Q], or stops early in a state
    satisfying [E]. *)
Definition hoare {A} (d : Driver) (P : World -> Prop) (m : M A)
    (Q : A -> World -> Prop) (E : stop -> World -> Prop) : Prop :=
  forall w, P w ->
    match m d w with
    | (Normal a, w') => Q a w'
    | (Abort s, w') => E s w'
    end.

(** Every call made so far, with the driver's answer, satisfies [X]. *)
Definition always (X : call * response -> Prop) (w : World) : Prop :=
  Forall X (trace w).

(** [m] keeps the invariant [always X] however it ends; [F] describes the
    states in which it may stop with the invariant broken. *)
Definition keeps {A} (X : call * response -> Prop)
    (F : stop -> World -> Prop) (m : M A) : Prop :=
  forall d, hoare d (always X) m (fun _ => always X)
              (fun s w => always X w \/ F s w).

Definition never : stop -> World -> Prop := fun _ _ => False.

Definition is_label (labels : list string) (f : string) : bool :=
  existsb (String.eqb f) labels.

(** *** The error policy (C3, C4) *)









(** The line [assertEGLError] prints for the answer [r] to the call it
    checks: nothing when the call succeeded. *)
Definition report (label : string) (r : response) : list printed :=
  if raised EGL r =? EGL_SUCCESS then [] else [EGLErrorAt (raised EGL r) label].

(** *** Context creation (C9) *)

(** A call that, if it creates a context, asks for client version [v]. *)
Definition context_version (v : Z) (e : call * response) : Prop :=
  fn (fst e) = "eglCreateContext" ->
  nth 3 (args (fst e)) Null = Ints [EGL_CONTEXT_CLIENT_VERSION; v; EGL_NONE].

(** *** The loop of session A (C6) *)

(** The calls that only the code after the loop of [thread_func_a] makes. *)
Definition teardown_calls : list string :=
  ["glDeleteFramebuffers"; "glDeleteTextures"; "eglDestroySurface";
   "eglDestroyContext"].

Definition not_teardown (e : call * response) : Prop :=
  is_label teardown_calls (fn (fst e)) = false.

(** The GL calls of one pass of the loop that a check follows, counted
    from the first call of the pass.  Calls 11 to 14 are the three EGL
    queries and [gettid]; calls 19 and 20, [stbi_write_png] and the last
    [glBindFramebuffer], are followed by no check in the pass. *)
Definition pass_gl_calls : list nat :=
  [0; 1; 2; 3; 4; 5; 6; 7; 8; 9; 10; 15; 16; 17; 18]%nat.

(** The label of the check that follows call [k] of a pass, and the
    number of calls the pass has made when it gets to that check. *)
Definition pass_check (k : nat) : string * nat :=
  if (k <? 1)%nat then ("glBindFramebuffer", 1%nat)
  else if (k <? 16)%nat then ("glDrawElements", 16%nat)
  else if (k <? 18)%nat then ("glPixelStorei", 18%nat)
  else ("glReadPixels", 19%nat).

(** The driver never raises an error. *)
Definition error_free (d : Driver) : Prop := forall n, error (d n) = None.

(** How many times the literal line [s] has been printed. *)
Definition is_text (s : string) (p : printed) : bool :=
  match p with Text s' => String.eqb s s' | _ => false end.

Definition count_printed (s : string) (w : World) : nat :=
  List.length (filter (is_text s) (stdout w)).

(** *** Teardown, and the ways code stops (C4, C6) *)

(** The five most recent calls are the teardown steps of [main] of
    offscreen_egl.cpp, all of them, the last one last. *)
Definition teardown_done (w : World) : Prop :=
  exists t, map (fun e => fn (fst e)) (trace w) =
            ["eglTerminate"; "eglDestroyContext"; "eglDestroySurface";
             "glDeleteTextures"; "glDeleteFramebuffers"] ++ t.

(** Two EGL teardown steps of multithreads.cpp, [label1] then [label2],
    each checked by [assertEGLError], at the end of a piece of code that
    ran from [w] to the result [r] and whose calls are [steps] (the most
    recent first): the first step that raises an error is reported and
    the process exits with -1, a later step not being made; when neither
    raises an error the code completes and has printed nothing, whatever
    the unchecked calls before the two steps raised. *)
Definition two_fatal_steps (label1 label2 : string) (steps : list call)
    (d : Driver) (w : World) (r : outcome unit * World) : Prop :=
  let n := (List.length steps - 2 + List.length (trace w))%nat in
  let e1 := raised EGL (d n) in
  let e2 := raised EGL (d (S n)) in
  (e1 <> EGL_SUCCESS ->
     fst r = Abort (Exited (-1)) /\
     map fst (trace (snd r)) = tl steps ++ map fst (trace w) /\
     stdout (snd r) = EGLErrorAt e1 label1 :: stdout w) /\
  (e1 = EGL_SUCCESS -> e2 <> EGL_SUCCESS ->
     fst r = Abort (Exited (-1)) /\
     map fst (trace (snd r)) = steps ++ map fst (trace w) /\
     stdout (snd r) = EGLErrorAt e2 label2 :: stdout w) /\
  (e1 = EGL_SUCCESS -> e2 = EGL_SUCCESS ->
     fst r = Normal tt /\
     map fst (trace (snd r)) = steps ++ map fst (trace w) /\
     stdout (snd r) = stdout w).

(** The same for a single checked step, the last of [steps]. *)
Definition one_fatal_step (label : string) (steps : list call)
    (d : Driver) (w : World) (r : outcome unit * World) : Prop :=
  let n := (List.length steps - 1 + List.length (trace w))%nat in
  let e := raised EGL (d n) in
  (e <> EGL_SUCCESS ->
     fst r = Abort (Exited (-1)) /\
     map fst (trace (snd r)) = steps ++ map fst (trace w) /\
     stdout (snd r) = EGLErrorAt e label :: stdout w) /\
  (e = EGL_SUCCESS ->
     fst r = Normal tt /\
     map fst (trace (snd r)) = steps ++ map fst (trace w) /\
     stdout (snd r) = stdout w).

(** The most recent call is a config selection. *)
Definition stopped_at_config (w : World) : Prop :=
  exists t, map (fun e => fn (fst e)) (trace w) = "eglChooseConfig" :: t.

Definition no_stop : stop -> World -> Prop := fun _ _ => False.

(** [m] never stops early except as [S] allows. *)
Definition stops_only {A} (S : stop -> World -> Prop) (m : M A) : Prop :=
  forall d, hoare d (fun _ => True) m (fun _ _ => True) S.

(** The process has exited with -1 and the last line printed is the
    report of a GL error. *)
Definition exits_reporting (s : stop) (w : World) : Prop :=
  s = Exited (-1) /\
  exists e msg, hd_error (stdout w) = Some (OpenGLErrorAt e msg) /\
                e <> GL_NO_ERROR.

Definition runs_or_exits (s : stop) (w : World) : Prop :=
  s = Running \/ exits_reporting s w.

Definition finish_saving_img : string := "finish saving img.png\n".
(** *** The shader builder (C8) *)



(** The [GLContext] that [main] of multithreads.cpp hands to the threads
    when display and config are both handle 1. *)
Definition glCtx1 : Multithreads.GLContext := Multithreads.mkGLContext 1 1 512 512.

(** Some locals for the loop of [thread_func_a]. *)
Definition locals1 : Multithreads.locals_a :=
  Multithreads.mkLocalsA 1 1 1 1 2048 1 1 1 1 1.

(* ================================================================== *)
(** ** Vocabulary of the further properties *)

(** *** The pixel format helper *)

(** The number of channels of a recognised format. *)
Definition channels (format : Z) : Z :=
  if case_of format formats1 then 1
  else if case_of format formats2 then 2
  else if case_of format formats3 then 3
  else if case_of format formats4 then 4
  else 0.

(** *** The shader builder *)

(** What [LoadShader] returns, from a state with [n] calls made: 0 when the
    driver hands out no stage object, the stage object when the driver
    reports it compiled, 0 otherwise. *)
Definition stage_result (d : Driver) (n : nat) : Z :=
  if ret (d n) =? 0 then 0
  else if out 0 (d (3 + n)%nat) =? 0 then 0
  else ret (d n).

(** How [CompileProgram] / [init_triangle] can end, returning [v]: with a
    program the driver just reported as linked; with 0 because no program
    object was created; or with 0 right after deleting the program that
    failed to link. *)
Definition program_result (v : Z) (w : World) : Prop :=
  match trace w with
  | (c, r) :: _ =>
      (v <> 0 /\ c = Call GL "glGetProgramiv" [Int v; Int GL_LINK_STATUS] /\
       out 0 r <> 0) \/
      (v = 0 /\ c = Call GL "glCreateProgram" [] /\ ret r = 0) \/
      (v = 0 /\ exists p, p <> 0 /\ c = Call GL "glDeleteProgram" [Int p])
  | [] => False
  end.

(** The six calls [draw_triangle] makes once it has its program. *)
Definition draw_calls (program width height : Z) (vs : list Q) : list call :=
  [Call GL "glDrawArrays" [Int GL_TRIANGLES; Int 0; Int 3];
   Call GL "glEnableVertexAttribArray" [Int 0];
   Call GL "glVertexAttribPointer"
     [Int 0; Int 3; Int GL_FLOAT; Int GL_FALSE; Int 0; Flts vs];
   Call GL "glUseProgram" [Int program];
   Call GL "glClear" [Int GL_COLOR_BUFFER_BIT];
   Call GL "glViewport" [Int 0; Int 0; Int width; Int height]].

(** *** Image output and the ways the processes end *)

(** A call that, if it writes a PNG, writes [file] with the given size,
    4 channels and the stride of the inline readback sizing. *)
Definition writes_png (file : string) (width height : Z)
    (e : call * response) : Prop :=
  fn (fst e) = "stbi_write_png" ->
  args (fst e) = [Str file; Int width; Int height; Int 4; Buf "buffer";
                  Int (readback_stride width)].

(** The last line printed reports an EGL or GL error. *)
Definition error_reported (w : World) : Prop :=
  exists e msg,
    (hd_error (stdout w) = Some (EGLErrorAt e msg) /\ e <> EGL_SUCCESS) \/
    (hd_error (stdout w) = Some (OpenGLErrorAt e msg) /\ e <> GL_NO_ERROR).

(** If the process has exited, it has exited with -1, right after an
    error report. *)
Definition exit_after_report (s : stop) (w : World) : Prop :=
  forall code, s = Exited code -> code = -1 /\ error_reported w.

(** The process has exited with -1 right after an error report. *)
Definition exits_with_report (s : stop) (w : World) : Prop :=
  s = Exited (-1) /\ error_reported w.

(** Session B is through: its most recent calls are the draw, the
    readback, the PNG output and the whole teardown, in this order (the
    last one first), and the last line printed announces the image. *)
Definition session_b_rendered (w : World) : Prop :=
  (exists t, map (fun e => fn (fst e)) (trace w) =
             ["glBindFramebuffer"; "stbi_write_png"; "glReadPixels";
              "glBindFramebuffer"; "glDrawArrays"; "glEnableVertexAttribArray";
              "glVertexAttribPointer"; "glUseProgram"; "glClear"; "glViewport"]
             ++ t) /\
  hd_error (stdout w) = Some (Text "finish saving img2.png\n").

Definition session_b_done (w : World) : Prop :=
  (exists t, map (fun e => fn (fst e)) (trace w) =
             ["eglDestroyContext"; "eglDestroySurface"; "glDeleteTextures";
              "glDeleteFramebuffers";
              "glBindFramebuffer"; "stbi_write_png"; "glReadPixels";
              "glBindFramebuffer"; "glDrawArrays"; "glEnableVertexAttribArray";
              "glVertexAttribPointer"; "glUseProgram"; "glClear"; "glViewport"]
             ++ t) /\
  hd_error (stdout w) = Some (Text "finish saving img2.png\n").

(** How session B ends: it returns 0 when it is done, the size of its
    readback buffer not being negative; or the process has exited with -1
    right after an error report; or the size computed for the readback
    buffer is negative and the exception of the buffer's constructor has
    aborted the process right after the draw. *)
Definition session_b_ends (glCtx : Multithreads.GLContext) (s : stop)
    (w : World) : Prop :=
  (s = Return 0 /\ session_b_done w /\
   0 <= readback_bufferSize (Multithreads.width glCtx) (Multithreads.height glCtx)) \/
  exits_with_report s w \/
  (s = Thrown /\
   readback_bufferSize (Multithreads.width glCtx) (Multithreads.height glCtx) < 0 /\
   exists t, map (fun e => fn (fst e)) (trace w) = "glDrawArrays" :: t).

(** The setup of [main] gets through, as the answers to its first six
    calls decide: the display is obtained and initialized and the number
    of configs is read without an error, that number is not negative,
    both config selections return [EGL_TRUE] with a count of matching
    configs that is not 0 (and, for the first, not above the number of
    configs), and the API is bound without an error. *)
Definition setup_succeeds (d : Driver) : Prop :=
  raised EGL (d 0%nat) = EGL_SUCCESS /\
  raised EGL (d 1%nat) = EGL_SUCCESS /\
  raised EGL (d 2%nat) = EGL_SUCCESS /\
  0 <= out 0 (d 2%nat) /\
  (ret (d 3%nat) <> EGL_FALSE /\ out 1 (d 3%nat) <> 0 /\
   out 1 (d 3%nat) <= out 0 (d 2%nat)) /\
  (ret (d 4%nat) <> EGL_FALSE /\ out 1 (d 4%nat) <> 0) /\
  raised EGL (d 5%nat) = EGL_SUCCESS.

(* ================================================================== *)
(** * Properties *)

(** ** Machine arithmetic *)

Section MachineIntFacts.

Lemma to_int_small z : INT_MIN <= z <= INT_MAX -> to_int z = z.
Proof.
  unfold to_int, INT_MIN, INT_MAX. intros H.
  rewrite Z.mod_small; lia.
Qed.

Lemma to_int_range z : INT_MIN <= to_int z <= INT_MAX.
Proof.
  unfold to_int, INT_MIN, INT_MAX.
  pose proof (Z.mod_pos_bound (z + 2 ^ 31) (2 ^ 32) ltac:(lia)). lia.
Qed.

Lemma to_int_shift z : exists k, to_int z = z + k * 2 ^ 32.
Proof.
  unfold to_int. exists (- ((z + 2 ^ 31) / 2 ^ 32)).
  pose proof (Z.div_mod (z + 2 ^ 31) (2 ^ 32) ltac:(lia)). lia.
Qed.

Lemma to_size_t_shift z : exists k, to_size_t z = z + k * 2 ^ 64.
Proof.
  unfold to_size_t. exists (- (z / 2 ^ 64)).
  pose proof (Z.div_mod z (2 ^ 64) ltac:(lia)). lia.
Qed.

Lemma to_size_t_small z : 0 <= z < 2 ^ 64 -> to_size_t z = z.
Proof. intros. unfold to_size_t. now apply Z.mod_small. Qed.

(** Two integers that differ by a multiple of 2^32 convert to the same
    [int]. *)
Lemma to_int_congr a b k : a = b + k * 2 ^ 32 -> to_int a = to_int b.
Proof.
  intros ->. unfold to_int.
  replace (b + k * 2 ^ 32 + 2 ^ 31) with (b + 2 ^ 31 + k * 2 ^ 32) by ring.
  now rewrite Z.mod_add by lia.
Qed.

End MachineIntFacts.

(** ** The pixel format helper *)

Section PixelFormatFacts.

(** The bit sizes [glUtilsPixelBitSize] can return. *)
Lemma glUtilsPixelBitSize_values format type :
  In (fst (glUtilsPixelBitSize format type)) [0; 8; 16; 24; 32].
Proof.
  unfold glUtilsPixelBitSize.
  destruct (case_of type byte_types), (case_of type short_types),
    (case_of type int_types), (case_of format formats1),
    (case_of format formats2), (case_of format formats3),
    (case_of format formats4); vm_compute; tauto.
Qed.

Lemma round_up4_smallest line :
  smallest_multiple_of_4_above line (round_up4 line).
Proof.
  unfold smallest_multiple_of_4_above, round_up4. repeat split.
  - exists ((line + 3) / 4). ring.
  - pose proof (Z.div_mod (line + 3) 4 ltac:(lia)).
    pose proof (Z.mod_pos_bound (line + 3) 4 ltac:(lia)). lia.
  - intros m [q ->] Hle.
    assert ((line + 3) / 4 <= q); [|lia].
    replace q with ((q * 4 + 3) / 4).
    + apply Z.div_le_mono; lia.
    + rewrite Z.add_comm, Z.div_add by lia. reflexivity.
Qed.

(** The rounding of [pixelDataSize], on a line size that fits an [int]. *)
Lemma aligned_linesize_round_up4 line :
  0 <= line <= INT_MAX ->
  (let a := to_size_t (int_mul (to_int (size_div (to_size_t line) (to_size_t 4))) 4) in
   if a <? to_size_t line then size_add a (to_size_t 4) else a)
  = round_up4 line.
Proof.
  unfold INT_MAX. intros H. cbv zeta.
  rewrite (to_size_t_small line) by lia.
  rewrite (to_size_t_small 4) by lia.
  unfold size_div, int_mul, size_add, round_up4.
  pose proof (Z.div_mod line 4 ltac:(lia)) as Hdm.
  pose proof (Z.mod_pos_bound line 4 ltac:(lia)) as Hm.
  rewrite (to_int_small (line / 4)) by (unfold INT_MIN, INT_MAX; lia).
  rewrite (to_int_small (line / 4 * 4)) by (unfold INT_MIN, INT_MAX; lia).
  rewrite (to_size_t_small (line / 4 * 4)) by lia.
  assert (Hq : (line + 3) / 4 = line / 4 + (if line mod 4 =? 0 then 0 else 1)).
  { destruct (Z.eqb_spec (line mod 4) 0) as [E|E].
    - symmetry. apply (Z.div_unique (line + 3) 4 _ 3); lia.
    - symmetry. apply (Z.div_unique (line + 3) 4 _ (line mod 4 - 1)); lia. }
  rewrite Hq.
  destruct (Z.ltb_spec (line / 4 * 4) line) as [L|L];
    destruct (Z.eqb_spec (line mod 4) 0) as [E|E]; try lia.
  rewrite to_size_t_small by lia. lia.
Qed.

End PixelFormatFacts.

Section PixelDataSize.

Lemma glUtilsPixelBitSize_bytes format type :
  0 <= fst (glUtilsPixelBitSize format type) / 8 <= 4 /\
  Z.shiftr (fst (glUtilsPixelBitSize format type)) 3
  = fst (glUtilsPixelBitSize format type) / 8.
Proof.
  rewrite Z.shiftr_div_pow2 by lia. change (2 ^ 3) with 8.
  pose proof (glUtilsPixelBitSize_values format type) as H.
  cbn [In] in H.
  destruct H as [<-|[<-|[<-|[<-|[<-|[]]]]]]; cbn; lia.
Qed.

Lemma pixelDataSize_zero width height format type :
  width <= 0 \/ height <= 0 ->
  pixelDataSize width height format type = (0, []).
Proof.
  intros H. unfold pixelDataSize.
  destruct (Z.leb_spec width 0), (Z.leb_spec height 0); cbn; trivial; lia.
Qed.

(** C1, as amended: for every width > 0 and height > 0 and every
    format/type pair, as long as the total fits in a [GLsizei],
    [pixelDataSize] takes bytes = bits_per_pixel / 8 and
    line = bytes * width, rounds the line up to the smallest multiple of 4
    that is >= the raw line size, and returns aligned_line * height; when
    width or height is zero it returns 0. *)
Theorem pixelDataSize_row_aligned width height format type :
  in_int width -> in_int height ->
  let bytes := fst (glUtilsPixelBitSize format type) / 8 in
  let line := bytes * width in
  (0 < width -> 0 < height -> round_up4 line * height <= INT_MAX ->
   smallest_multiple_of_4_above line (round_up4 line) /\
   fst (pixelDataSize width height format type) = round_up4 line * height)
  /\ (width = 0 \/ height = 0 ->
      fst (pixelDataSize width height format type) = 0).
Proof.
  intros Hw Hh bytes line. split.
  - intros Wpos Hpos Hfit.
    pose proof (round_up4_smallest line) as Hsm.
    split; [exact Hsm|].
    destruct Hsm as (_ & Hle & _).
    destruct (glUtilsPixelBitSize_bytes format type) as [Hb Hshift].
    fold bytes in Hb.
    assert (Hline : 0 <= line <= INT_MAX) by (unfold line, INT_MAX in *; nia).
    unfold pixelDataSize.
    destruct (Z.leb_spec width 0); [lia|].
    destruct (Z.leb_spec height 0); [lia|]. cbn [orb].
    destruct (glUtilsPixelBitSize format type) as [bits diag] eqn:E.
    cbn [fst] in *. cbv zeta. cbn [fst]. rewrite Hshift. fold bytes.
    assert (Hmul : int_mul bytes width = line).
    { unfold int_mul. apply to_int_small. unfold INT_MIN, INT_MAX in *. lia. }
    rewrite Hmul.
    pose proof (aligned_linesize_round_up4 line Hline) as Ha.
    cbv zeta in Ha. rewrite Ha.
    unfold in_int, INT_MIN, INT_MAX in *.
    rewrite (to_size_t_small height) by lia.
    unfold size_mul.
    rewrite to_size_t_small by nia.
    apply to_int_small. unfold INT_MIN, INT_MAX. nia.
  - intros H. rewrite pixelDataSize_zero; [reflexivity | lia].
Qed.

(** C1, witness: a 5 x 3 RGB / unsigned-byte image has 15-byte lines,
    padded to 16. *)
Lemma pixelDataSize_row_aligned_witness :
  smallest_multiple_of_4_above 15 16 /\
  fst (pixelDataSize 5 3 GL_RGB GL_UNSIGNED_BYTE) = 48.
Proof.
  apply (pixelDataSize_row_aligned 5 3 GL_RGB GL_UNSIGNED_BYTE);
    unfold in_int, INT_MIN, INT_MAX; cbn; lia.
Defined.

(** C1, counterexample to the claim as stated (no bound on the total): a
    65536 x 65536 RGBA / unsigned-byte image has 262144-byte lines and
    needs 2^34 bytes, but the [size_t] product converted to [GLsizei] is 0. *)
Lemma pixelDataSize_overflow_counterexample :
  0 < 65536 /\
  round_up4 (fst (glUtilsPixelBitSize GL_RGBA GL_UNSIGNED_BYTE) / 8 * 65536)
    * 65536 = 17179869184 /\
  fst (pixelDataSize 65536 65536 GL_RGBA GL_UNSIGNED_BYTE) = 0 /\
  fst (pixelDataSize 65536 65536 GL_RGBA GL_UNSIGNED_BYTE)
  <> round_up4 (fst (glUtilsPixelBitSize GL_RGBA GL_UNSIGNED_BYTE) / 8 * 65536)
       * 65536.
Proof. vm_compute. repeat split; congruence. Qed.

(** C2: for every width > 0 and height > 0 the inline readback sizing of
    the render paths (stride = 4 * width rounded up to a multiple of 4,
    bufferSize = stride * height) equals
    [pixelDataSize(width, height, GL_RGBA, GL_UNSIGNED_BYTE)]; for
    width = height = 512 the stride is 2048 and both totals are 1048576. *)
Theorem readback_bufferSize_is_pixelDataSize width height :
  0 < width -> 0 < height -> in_int width -> in_int height ->
  readback_bufferSize width height
  = fst (pixelDataSize width height GL_RGBA GL_UNSIGNED_BYTE)
  /\ (readback_stride 512 = 2048 /\
      round_up4 (fst (glUtilsPixelBitSize GL_RGBA GL_UNSIGNED_BYTE) / 8 * 512) = 2048 /\
      readback_bufferSize 512 512 = 1048576 /\
      fst (pixelDataSize 512 512 GL_RGBA GL_UNSIGNED_BYTE) = 1048576).
Proof.
  intros Wpos Hpos Hw Hh. split; [|vm_compute; auto].
  unfold readback_bufferSize, readback_stride, pixelDataSize.
  destruct (Z.leb_spec width 0); [lia|].
  destruct (Z.leb_spec height 0); [lia|]. cbn [orb].
  replace (glUtilsPixelBitSize GL_RGBA GL_UNSIGNED_BYTE) with (32, @nil printed)
    by reflexivity.
  cbv zeta. change (Z.shiftr 32 3) with 4. change (4 =? 0) with false.
  cbn [fst].
  set (s := int_mul 4 width).
  (* the raw stride is 4 * q for some q that fits 30 bits *)
  assert (Hs : exists q, s = q * 4 /\ - 2 ^ 29 <= q < 2 ^ 29).
  { destruct (to_int_shift (4 * width)) as [k Hk].
    pose proof (to_int_range (4 * width)) as Hr.
    fold (int_mul 4 width) in Hk, Hr. fold s in Hk, Hr.
    exists (width + k * 2 ^ 30). unfold INT_MIN, INT_MAX in Hr. lia. }
  destruct Hs as (q & Hq & Hqr).
  assert (Hrem : int_rem s 4 = 0).
  { unfold int_rem. rewrite Hq. apply Z.rem_mul. lia. }
  rewrite Hrem. cbn [Z.eqb negb].
  assert (Hstride : int_add s 0 = s).
  { unfold int_add. rewrite Z.add_0_r. apply to_int_small.
    unfold INT_MIN, INT_MAX. lia. }
  rewrite Hstride.
  (* the size_t line size, its quotient by 4, and the product back *)
  destruct (to_size_t_shift s) as [j Hj].
  assert (Hdiv : size_div (to_size_t s) (to_size_t 4) = q + j * 2 ^ 62).
  { unfold size_div. rewrite (to_size_t_small 4) by lia. rewrite Hj, Hq.
    replace (q * 4 + j * 2 ^ 64) with ((q + j * 2 ^ 62) * 4) by ring.
    apply Z.div_mul. lia. }
  rewrite Hdiv.
  assert (Hback : to_int (q + j * 2 ^ 62) = q).
  { rewrite (to_int_congr _ q (j * 2 ^ 30)) by ring.
    apply to_int_small. unfold INT_MIN, INT_MAX. lia. }
  rewrite Hback.
  assert (Hal : int_mul q 4 = s).
  { unfold int_mul. rewrite <- Hq. apply to_int_small.
    unfold INT_MIN, INT_MAX. lia. }
  rewrite Hal, Z.ltb_irrefl.
  (* both totals are congruent modulo 2^32 *)
  unfold int_mul at 1. unfold size_mul.
  destruct (to_size_t_shift height) as [i Hi].
  destruct (to_size_t_shift (to_size_t s * to_size_t height)) as [m Hm].
  rewrite Hm, Hj, Hi. symmetry.
  apply (to_int_congr _ _
           (s * i * 2 ^ 32 + j * 2 ^ 32 * height + j * i * 2 ^ 96 + m * 2 ^ 32)).
  ring.
Qed.

(** C2, witness: a 5 x 3 image. *)
Lemma readback_bufferSize_is_pixelDataSize_witness :
  readback_bufferSize 5 3 = fst (pixelDataSize 5 3 GL_RGBA GL_UNSIGNED_BYTE).
Proof.
  apply (readback_bufferSize_is_pixelDataSize 5 3);
    unfold in_int, INT_MIN, INT_MAX; lia.
Defined.

(** C10: for every negative width or negative height [pixelDataSize]
    returns 0 through the same early return as for zero: nothing is
    printed and the result does not depend on format and type (which
    [glUtilsPixelBitSize] would otherwise report when unknown). *)
Theorem pixelDataSize_negative width height format type :
  width < 0 \/ height < 0 ->
  pixelDataSize width height format type = (0, []) /\
  forall format' type',
    pixelDataSize width height format' type'
    = pixelDataSize width height format type.
Proof.
  intros H. split.
  - apply pixelDataSize_zero. lia.
  - intros. rewrite !pixelDataSize_zero by lia. reflexivity.
Qed.

(** C10, witness: width -1, with a format and a type that no [case]
    recognises. *)
Lemma pixelDataSize_negative_witness :
  pixelDataSize (-1) 3 7 7 = (0, []).
Proof.
  apply (pixelDataSize_negative (-1) 3 7 7). left. lia.
Defined.

(** C7: when the type is in none of the byte / short-packed / int-float
    categories, or the type only gives a component size (a byte type) and
    the format is none of the recognised channel layouts,
    [glUtilsPixelBitSize] returns 0 and does nothing but print its
    diagnostics; the caller [pixelDataSize] then sizes the buffer as 0
    bytes whatever the dimensions. *)
Theorem glUtilsPixelBitSize_unknown format type :
  known_type type = false \/
  (case_of type byte_types = true /\ known_format format = false) ->
  exists diag,
    glUtilsPixelBitSize format type = (0, diag) /\
    diag <> [] /\ Forall diagnostic diag /\
    forall width height, fst (pixelDataSize width height format type) = 0.
Proof.
  intros H.
  assert (Hbits : exists diag, glUtilsPixelBitSize format type = (0, diag) /\
                               diag <> [] /\ Forall diagnostic diag).
  { unfold known_type, known_format, glUtilsPixelBitSize, diagnostic in *.
    destruct (case_of type byte_types), (case_of type short_types),
      (case_of type int_types), (case_of format formats1),
      (case_of format formats2), (case_of format formats3),
      (case_of format formats4); cbn [orb] in H;
      try (destruct H as [H|[H1 H2]]; discriminate);
      vm_compute;
      eexists; (split; [reflexivity|]); (split; [discriminate|]);
      repeat (apply Forall_cons; [auto|]); apply Forall_nil. }
  destruct Hbits as (diag & E & Hne & Hd).
  exists diag. repeat split; trivial.
  intros width height. unfold pixelDataSize.
  destruct ((width <=? 0) || (height <=? 0)); [reflexivity|].
  rewrite E. reflexivity.
Qed.

(** C7, witness: type 7 is no pixel type at all; format 7 with
    [GL_UNSIGNED_BYTE] is no channel layout. *)
Lemma glUtilsPixelBitSize_unknown_witness :
  (exists diag, glUtilsPixelBitSize GL_RGBA 7 = (0, diag) /\ diag <> [] /\
     Forall diagnostic diag /\
     forall width height, fst (pixelDataSize width height GL_RGBA 7) = 0) /\
  (exists diag, glUtilsPixelBitSize 7 GL_UNSIGNED_BYTE = (0, diag) /\ diag <> [] /\
     Forall diagnostic diag /\
     forall width height, fst (pixelDataSize width height 7 GL_UNSIGNED_BYTE) = 0).
Proof.
  split.
  - apply (glUtilsPixelBitSize_unknown GL_RGBA 7). left. reflexivity.
  - apply (glUtilsPixelBitSize_unknown 7 GL_UNSIGNED_BYTE). right.
    split; reflexivity.
Defined.

End PixelDataSize.

(** ** Rules for triples *)

Section HoareRules.

Context {A B : Type} (d : Driver).
Implicit Types (P : World -> Prop) (E : stop -> World -> Prop).

Lemma hoare_ret P (a : A) (Q : A -> World -> Prop) E :
  (forall w, P w -> Q a w) -> hoare d P (ret_ a) Q E.
Proof. intros H w Hw. cbn. auto. Qed.

Lemma hoare_bind P (m : M A) (f : A -> M B) R (Q : B -> World -> Prop) E :
  hoare d P m R E ->
  (forall a, hoare d (R a) (f a) Q E) ->
  hoare d P (bind m f) Q E.
Proof.
  intros Hm Hf w Hw. unfold bind. specialize (Hm w Hw).
  destruct (m d w) as [[a|s] w']; [apply (Hf a w' Hm) | exact Hm].
Qed.

Lemma hoare_conseq P P' (m : M A) (Q Q' : A -> World -> Prop) E E' :
  hoare d P' m Q' E' ->
  (forall w, P w -> P' w) ->
  (forall a w, Q' a w -> Q a w) ->
  (forall s w, E' s w -> E s w) ->
  hoare d P m Q E.
Proof.
  intros H HP HQ HE w Hw. specialize (H w (HP w Hw)).
  destruct (m d w) as [[a|s] w']; auto.
Qed.

Lemma hoare_call P a f xs (proj : response -> A) (Q : A -> World -> Prop) E :
  (forall w, P w ->
     Q (proj (d (List.length (trace w))))
       (snd (driver_call a f xs proj d w))) ->
  hoare d P (driver_call a f xs proj) Q E.
Proof. intros H w Hw. cbn. apply (H w Hw). Qed.

Lemma hoare_exit P code (Q : A -> World -> Prop) E :
  (forall w, P w -> E (Exited code) w) -> hoare d P (exit code) Q E.
Proof. intros H w Hw. cbn. auto. Qed.

Lemma hoare_return P v (Q : A -> World -> Prop) E :
  (forall w, P w -> E (Return v) w) -> hoare d P (return_ v) Q E.
Proof. intros H w Hw. cbn. auto. Qed.

Lemma hoare_out_of_fuel P (Q : A -> World -> Prop) E :
  (forall w, P w -> E Running w) -> hoare d P out_of_fuel Q E.
Proof. intros H w Hw. cbn. auto. Qed.

Lemma hoare_throw P (Q : A -> World -> Prop) E :
  (forall w, P w -> E Thrown w) -> hoare d P throw Q E.
Proof. intros H w Hw. cbn. auto. Qed.

End HoareRules.

Section HoareRulesUnit.

Context (d : Driver).
Implicit Types (P : World -> Prop) (E : stop -> World -> Prop).

Lemma hoare_printf P p (Q : unit -> World -> Prop) E :
  (forall w, P w -> Q tt (snd (printf p d w))) -> hoare d P (printf p) Q E.
Proof. intros H w Hw. cbn. apply (H w Hw). Qed.

Lemma hoare_when P (c : bool) m (Q : unit -> World -> Prop) E :
  (c = true -> hoare d P m Q E) ->
  (c = false -> forall w, P w -> Q tt w) ->
  hoare d P (when c m) Q E.
Proof.
  intros Ht Hf. destruct c; cbn.
  - auto.
  - apply hoare_ret. auto.
Qed.

Lemma hoare_fn_body P body (Q : Z -> World -> Prop) E :
  hoare d P body Q
    (fun s w => match s with Return v => Q v w | _ => E s w end) ->
  hoare d P (fn_body body) Q E.
Proof.
  intros H w Hw. unfold fn_body. specialize (H w Hw).
  destruct (body d w) as [[a|[v|c| |]] w']; exact H.
Qed.

(** A loop whose guard is the constant [true] never ends normally. *)
Lemma hoare_while_true P body E fuel :
  hoare d P body (fun _ => P) E ->
  (forall w, P w -> E Running w) ->
  hoare d P (while fuel (ret_ true) body) (fun _ _ => False) E.
Proof.
  intros Hbody Hrun. induction fuel as [|fuel IH]; cbn [while].
  - apply hoare_out_of_fuel, Hrun.
  - eapply hoare_bind.
    + apply hoare_ret with (Q := fun c w => c = true /\ P w). auto.
    + intros [|]; [|intros w [Hc _]; discriminate Hc].
      apply hoare_conseq with (P' := P) (Q' := fun _ _ => False) (E' := E);
        [|intros w [_ Hw]; exact Hw|auto|auto].
      eapply hoare_bind; [exact Hbody | intros ?; exact IH].
Qed.

End HoareRulesUnit.

(** ** Rules for invariants of the trace *)

Section Keeps.

Context (X : call * response -> Prop) (F : stop -> World -> Prop).

Lemma keeps_ret {A} (a : A) : keeps X F (ret_ a).
Proof. intros d. apply hoare_ret. auto. Qed.

Lemma keeps_bind {A B} (m : M A) (f : A -> M B) :
  keeps X F m -> (forall a, keeps X F (f a)) -> keeps X F (bind m f).
Proof. intros Hm Hf d. eapply hoare_bind; [apply Hm | intros a; apply Hf]. Qed.

Lemma keeps_call {A} a f xs (proj : response -> A) :
  (forall r, X (Call a f xs, r)) -> keeps X F (driver_call a f xs proj).
Proof.
  intros H d. apply hoare_call. intros w Hw. cbn.
  unfold always. cbn. constructor; [apply H | exact Hw].
Qed.

Lemma keeps_printf p : keeps X F (printf p).
Proof. intros d. apply hoare_printf. intros w Hw. exact Hw. Qed.

Lemma keeps_exit {A} code : keeps X F (@exit A code).
Proof. intros d. apply hoare_exit. auto. Qed.

Lemma keeps_return {A} v : keeps X F (@return_ A v).
Proof. intros d. apply hoare_return. auto. Qed.

Lemma keeps_throw {A} : keeps X F (@throw A).
Proof. intros d. apply hoare_throw. auto. Qed.

Lemma keeps_when c m : keeps X F m -> keeps X F (when c m).
Proof. intros H d. apply hoare_when; [intros _; apply H | auto]. Qed.

Lemma keeps_std_vector count : keeps X F (std_vector count).
Proof. apply keeps_when, keeps_throw. Qed.

Lemma keeps_eglGetError : keeps X F eglGetError.
Proof. intros d w Hw. exact Hw. Qed.

Lemma keeps_glGetError : keeps X F glGetError.
Proof. intros d w Hw. exact Hw. Qed.

Lemma keeps_while_true fuel body d :
  keeps X F body ->
  hoare d (always X) (while fuel (ret_ true) body) (fun _ _ => False)
    (fun s w => always X w \/ F s w).
Proof. intros H. apply hoare_while_true; [apply H | auto]. Qed.

End Keeps.

Section KeepsCalls.

Context (X : call * response -> Prop).

(** A called function keeps the invariant when its body does: the body's
    [return] is the normal end of the call. *)
Lemma keeps_fn_body F body : keeps X never body -> keeps X F (fn_body body).
Proof.
  intros H d. apply hoare_fn_body.
  eapply hoare_conseq; [apply (H d) | auto | auto |].
  intros [v|c| |] w [Hw|[]]; auto.
Qed.

Lemma keeps_Offscreen_assertOpenGLError F msg :
  keeps X F (Offscreen.assertOpenGLError msg).
Proof.
  apply keeps_bind; [apply keeps_glGetError|intros].
  apply keeps_when, keeps_printf.
Qed.

Lemma keeps_Offscreen_assertEGLError F msg :
  keeps X F (Offscreen.assertEGLError msg).
Proof.
  apply keeps_bind; [apply keeps_eglGetError|intros].
  apply keeps_when, keeps_printf.
Qed.

Lemma keeps_Multithreads_assertOpenGLError F msg :
  keeps X F (Multithreads.assertOpenGLError msg).
Proof.
  apply keeps_bind; [apply keeps_glGetError|intros].
  apply keeps_when, keeps_bind; [apply keeps_printf|intros; apply keeps_exit].
Qed.

Lemma keeps_Multithreads_assertEGLError F msg :
  keeps X F (Multithreads.assertEGLError msg).
Proof.
  apply keeps_bind; [apply keeps_eglGetError|intros].
  apply keeps_when, keeps_bind; [apply keeps_printf|intros; apply keeps_exit].
Qed.

(** What a run from the initial state satisfies. *)
Lemma keeps_run {A} F (m : M A) d :
  keeps X F m ->
  always X (snd (run m d)) \/
  exists s, fst (run m d) = Abort s /\ F s (snd (run m d)).
Proof.
  intros H. specialize (H d init_world (Forall_nil _)). unfold run.
  destruct (m d init_world) as [[a|s] w]; cbn; [now left|].
  destruct H; [now left | right; eauto].
Qed.

End KeepsCalls.

(** Walks through a sequence of statements, leaving the calls to [side]. *)
Ltac keeps_step side :=
  lazymatch goal with
  | |- keeps _ _ (match ?x with pair _ _ => _ end) => destruct x
  | |- keeps _ _ (bind _ _) => apply keeps_bind; [|intros]
  | |- keeps _ _ (ret_ _) => apply keeps_ret
  | |- keeps _ _ (return_ _) => apply keeps_return
  | |- keeps _ _ (exit _) => apply keeps_exit
  | |- keeps _ _ (printf _) => apply keeps_printf
  | |- keeps _ _ (std_vector _) => apply keeps_std_vector
  | |- keeps _ _ (when _ _) => apply keeps_when
  | |- keeps _ _ (fn_body _) => apply keeps_fn_body
  | |- keeps _ _ (Offscreen.assertOpenGLError _) =>
      apply keeps_Offscreen_assertOpenGLError
  | |- keeps _ _ (Offscreen.assertEGLError _) =>
      apply keeps_Offscreen_assertEGLError
  | |- keeps _ _ (Multithreads.assertOpenGLError _) =>
      apply keeps_Multithreads_assertOpenGLError
  | |- keeps _ _ (Multithreads.assertEGLError _) =>
      apply keeps_Multithreads_assertEGLError
  | |- keeps _ _ (egl _ _ _) => apply keeps_call; side
  | |- keeps _ _ (gl _ _ _) => apply keeps_call; side
  | |- keeps _ _ (sys _ _ _) => apply keeps_call; side
  end.


Lemma keeps_loop X F fuel body :
  keeps X F body -> keeps X F (while fuel (ret_ true) body).
Proof.
  intros H d. eapply hoare_conseq;
    [apply (keeps_while_true X F fuel body d H) | auto | intros _ w [] | auto].
Qed.

(** Unfolds the functions and blocks of both programs. *)
Ltac keeps_unfold :=
  lazymatch goal with
  | |- keeps _ _ (Offscreen.LoadShader _ _) => unfold Offscreen.LoadShader
  | |- keeps _ _ Offscreen.init_triangle => unfold Offscreen.init_triangle
  | |- keeps _ _ (Offscreen.draw_triangle _ _) => unfold Offscreen.draw_triangle
  | |- keeps _ _ Offscreen.main_setup => unfold Offscreen.main_setup
  | |- keeps _ _ Offscreen.main_render_target => unfold Offscreen.main_render_target
  | |- keeps _ _ Offscreen.main_render => unfold Offscreen.main_render
  | |- keeps _ _ (Offscreen.main_readback _) => unfold Offscreen.main_readback
  | |- keeps _ _ (Offscreen.main_teardown _ _ _ _ _) => unfold Offscreen.main_teardown
  | |- keeps _ _ Offscreen.main => unfold Offscreen.main
  | |- keeps _ _ (Multithreads.LoadShader _ _) => unfold Multithreads.LoadShader
  | |- keeps _ _ (Multithreads.CompileProgram _ _) => unfold Multithreads.CompileProgram
  | |- keeps _ _ (Multithreads.draw_triangle _ _) => unfold Multithreads.draw_triangle
  | |- keeps _ _ Multithreads.CreateSimpleTexture2D =>
      unfold Multithreads.CreateSimpleTexture2D
  | |- keeps _ _ (Multithreads.render_target _ _) => unfold Multithreads.render_target
  | |- keeps _ _ (Multithreads.thread_a_setup _) => unfold Multithreads.thread_a_setup
  | |- keeps _ _ (Multithreads.thread_a_init _) => unfold Multithreads.thread_a_init
  | |- keeps _ _ (Multithreads.thread_a_pass _ _) => unfold Multithreads.thread_a_pass
  | |- keeps _ _ (Multithreads.thread_a_teardown _ _) =>
      unfold Multithreads.thread_a_teardown
  | |- keeps _ _ (Multithreads.thread_a_loop _ _ _) =>
      unfold Multithreads.thread_a_loop; apply keeps_loop
  | |- keeps _ _ (Multithreads.thread_func_a _ _) => unfold Multithreads.thread_func_a
  | |- keeps _ _ (Multithreads.thread_b_setup _) => unfold Multithreads.thread_b_setup
  | |- keeps _ _ (Multithreads.thread_b_render _ _) => unfold Multithreads.thread_b_render
  | |- keeps _ _ (Multithreads.thread_b_teardown _ _ _ _ _) =>
      unfold Multithreads.thread_b_teardown
  | |- keeps _ _ (Multithreads.thread_func_b _) => unfold Multithreads.thread_func_b
  | |- keeps _ _ Multithreads.main_setup => unfold Multithreads.main_setup
  | |- keeps _ _ (Multithreads.main_coordinate _) => unfold Multithreads.main_coordinate
  | |- keeps _ _ Multithreads.main => unfold Multithreads.main
  end; cbv zeta.

Ltac keeps_program side :=
  cbv zeta; repeat first [keeps_step side | keeps_unfold].

(** ** Context creation *)

Section ContextCreation.

Ltac version_side :=
  let r := fresh "r" in let H := fresh "H" in
  intros r; unfold context_version; cbn [fn fst args nth]; intros H;
  first [discriminate H | reflexivity].

Lemma thread_func_a_version fuel glCtx :
  keeps (context_version 2) never (Multithreads.thread_func_a fuel glCtx).
Proof. keeps_program version_side. Qed.

Lemma thread_func_b_version glCtx :
  keeps (context_version 2) never (Multithreads.thread_func_b glCtx).
Proof. keeps_program version_side. Qed.

Lemma Multithreads_main_version :
  keeps (context_version 2) never Multithreads.main.
Proof. keeps_program version_side. Qed.

Lemma Offscreen_main_version :
  keeps (context_version 3) never Offscreen.main.
Proof. keeps_program version_side. Qed.

Lemma keeps_never_run {A} X (m : M A) d :
  keeps X never m -> always X (snd (run m d)).
Proof. intros H. destruct (keeps_run X never m d H) as [?|(s & _ & [])]. trivial. Qed.

End ContextCreation.

(** C9, as amended: every context creation of the two-session variant
    (both thread functions; its [main] creates none) passes
    [EGL_CONTEXT_CLIENT_VERSION] with value 2, and the context creation
    of the single-context variant passes it with value 3
    ([es_version]).  The last three facts show the calls being made. *)
Theorem context_creation_client_version :
  (forall d fuel glCtx,
      always (context_version 2)
        (snd (run (Multithreads.thread_func_a fuel glCtx) d))) /\
  (forall d glCtx,
      always (context_version 2) (snd (run (Multithreads.thread_func_b glCtx) d))) /\
  (forall d, always (context_version 2) (snd (run Multithreads.main d))) /\
  (forall d, always (context_version 3) (snd (run Offscreen.main d))) /\
  In (Call EGL "eglCreateContext"
        [Int 7; Int 9; Int EGL_NO_CONTEXT; Ints [EGL_CONTEXT_CLIENT_VERSION; 2; EGL_NONE]])
     (calls (snd (run (Multithreads.thread_func_a 1
                         (Multithreads.mkGLContext 7 9 512 512)) driver_ok))) /\
  In (Call EGL "eglCreateContext"
        [Int 7; Int 9; Int EGL_NO_CONTEXT; Ints [EGL_CONTEXT_CLIENT_VERSION; 2; EGL_NONE]])
     (calls (snd (run (Multithreads.thread_func_b
                         (Multithreads.mkGLContext 7 9 512 512)) driver_ok))) /\
  In (Call EGL "eglCreateContext"
        [Int 1; Int 1; Int EGL_NO_CONTEXT; Ints [EGL_CONTEXT_CLIENT_VERSION; 3; EGL_NONE]])
     (calls (snd (run Offscreen.main driver_ok))).
Proof.
  split; [|split; [|split; [|split; [|split; [|split]]]]].
  - intros. apply keeps_never_run, thread_func_a_version.
  - intros. apply keeps_never_run, thread_func_b_version.
  - intros. apply keeps_never_run, Multithreads_main_version.
  - intros. apply keeps_never_run, Offscreen_main_version.
  - vm_compute. tauto.
  - vm_compute. tauto.
  - vm_compute. tauto.
Qed.

(** C9, counterexample to the claim as stated: on a driver that answers
    every call successfully, [main] of offscreen_egl.cpp creates its
    context with client version 3, not 2. *)
Lemma Offscreen_context_version_counterexample :
  ~ always (context_version 2) (snd (run Offscreen.main driver_ok)).
Proof.
  unfold always. rewrite Forall_forall. intros H.
  specialize (H (Call EGL "eglCreateContext"
                   [Int 1; Int 1; Int EGL_NO_CONTEXT;
                    Ints [EGL_CONTEXT_CLIENT_VERSION; 3; EGL_NONE]], ok_resp)).
  assert (Hin : In (Call EGL "eglCreateContext"
                      [Int 1; Int 1; Int EGL_NO_CONTEXT;
                       Ints [EGL_CONTEXT_CLIENT_VERSION; 3; EGL_NONE]], ok_resp)
                   (trace (snd (run Offscreen.main driver_ok)))).
  { vm_compute. tauto. }
  specialize (H Hin eq_refl). cbn in H. discriminate H.
Qed.

(** ** The error checks, in closed form *)

Section Asserts.

Context (d : Driver) (w : World) (msg : string).

Lemma Offscreen_assertEGLError_eq :
  Offscreen.assertEGLError msg d w =
  (Normal tt,
   mkWorld (trace w)
     ((if egl_error w =? EGL_SUCCESS then []
       else [EGLErrorAt (egl_error w) msg]) ++ stdout w)
     EGL_SUCCESS (gl_error w)).
Proof.
  unfold Offscreen.assertEGLError, eglGetError, bind, when, printf, ret_. cbn.
  destruct (egl_error w =? EGL_SUCCESS); reflexivity.
Qed.

Lemma Multithreads_assertEGLError_eq :
  Multithreads.assertEGLError msg d w =
  if egl_error w =? EGL_SUCCESS
  then (Normal tt, mkWorld (trace w) (stdout w) EGL_SUCCESS (gl_error w))
  else (Abort (Exited (-1)),
        mkWorld (trace w) (EGLErrorAt (egl_error w) msg :: stdout w)
          EGL_SUCCESS (gl_error w)).
Proof.
  unfold Multithreads.assertEGLError, eglGetError, bind, when, printf, exit, ret_.
  cbn. destruct (egl_error w =? EGL_SUCCESS); reflexivity.
Qed.

Lemma Multithreads_assertOpenGLError_eq :
  Multithreads.assertOpenGLError msg d w =
  if gl_error w =? GL_NO_ERROR
  then (Normal tt, mkWorld (trace w) (stdout w) (egl_error w) GL_NO_ERROR)
  else (Abort (Exited (-1)),
        mkWorld (trace w) (OpenGLErrorAt (gl_error w) msg :: stdout w)
          (egl_error w) GL_NO_ERROR).
Proof.
  unfold Multithreads.assertOpenGLError, glGetError, bind, when, printf, exit, ret_.
  cbn. destruct (gl_error w =? GL_NO_ERROR); reflexivity.
Qed.

End Asserts.

Lemma bind_eq {A B} (m : M A) (f : A -> M B) d w :
  bind m f d w =
  match m d w with
  | (Normal a, w') => f a d w'
  | (Abort s, w') => (Abort s, w')
  end.
Proof. reflexivity. Qed.

Lemma call_eq {A} a f xs (proj : response -> A) d w :
  driver_call a f xs proj d w =
  (Normal (proj (d (List.length (trace w)))),
   mkWorld ((Call a f xs, d (List.length (trace w))) :: trace w) (stdout w)
     (match a with EGL => raised EGL (d (List.length (trace w))) | _ => egl_error w end)
     (match a with
      | GL => if gl_error w =? GL_NO_ERROR
              then raised GL (d (List.length (trace w))) else gl_error w
      | _ => gl_error w
      end)).
Proof. reflexivity. Qed.

Lemma when_eq c m d w :
  when c m d w = if c then m d w else (Normal tt, w).
Proof. destruct c; reflexivity. Qed.

Lemma ret_eq {A} (a : A) d w : ret_ a d w = (Normal a, w).
Proof. reflexivity. Qed.

Lemma return_eq {A} v d w : @return_ A v d w = (Abort (Return v), w).
Proof. reflexivity. Qed.

Lemma fn_body_eq body d w :
  fn_body body d w =
  match body d w with
  | (Abort (Return v), w') => (Normal v, w')
  | r => r
  end.
Proof. reflexivity. Qed.

Lemma printf_eq p d w :
  printf p d w =
  (Normal tt, mkWorld (trace w) (p :: stdout w) (egl_error w) (gl_error w)).
Proof. reflexivity. Qed.

Lemma std_vector_eq count d w :
  std_vector count d w = if count <? 0 then (Abort Thrown, w) else (Normal tt, w).
Proof. unfold std_vector. destruct (count <? 0); reflexivity. Qed.

(** Symbolic execution of straight-line code. *)
Ltac exec :=
  repeat (rewrite ?bind_eq, ?call_eq, ?when_eq, ?ret_eq, ?return_eq, ?printf_eq,
            ?std_vector_eq,
            ?Offscreen_assertEGLError_eq, ?Multithreads_assertEGLError_eq,
            ?Multithreads_assertOpenGLError_eq;
          unfold id;
          cbn [trace stdout egl_error gl_error List.length init_world
               negb orb fst snd]).

Section ErrorPolicy.

Context (L : list string).








End ErrorPolicy.

(** ** The error policy on the programs *)

Section Programs.









End Programs.







(** ** Rules for the ways a piece of code can stop *)

Section StopsOnly.

Context (S : stop -> World -> Prop).

Lemma stops_ret {A} (a : A) : stops_only S (ret_ a).
Proof. intros d. apply hoare_ret. auto. Qed.

Lemma stops_bind {A B} (m : M A) (f : A -> M B) :
  stops_only S m -> (forall a, stops_only S (f a)) -> stops_only S (bind m f).
Proof.
  intros Hm Hf d. eapply hoare_bind; [apply Hm | intros a; apply Hf].
Qed.

Lemma stops_call {A} a f xs (proj : response -> A) :
  stops_only S (driver_call a f xs proj).
Proof. intros d. apply hoare_call. auto. Qed.

Lemma stops_printf p : stops_only S (printf p).
Proof. intros d. apply hoare_printf. auto. Qed.

Lemma stops_return {A} v : (forall w, S (Return v) w) -> stops_only S (@return_ A v).
Proof. intros H d. apply hoare_return. auto. Qed.

Lemma stops_when c m : stops_only S m -> stops_only S (when c m).
Proof. intros H d. apply hoare_when; [intros _; apply H | auto]. Qed.

Lemma stops_std_vector count :
  (forall w, count < 0 -> S Thrown w) -> stops_only S (std_vector count).
Proof.
  intros H d w _. rewrite std_vector_eq.
  destruct (Z.ltb_spec count 0); [now apply H | exact I].
Qed.

Lemma stops_fn_body body :
  stops_only (fun s w => match s with Return _ => True | _ => S s w end) body ->
  stops_only S (fn_body body).
Proof.
  intros H d. apply hoare_fn_body.
  eapply hoare_conseq; [apply (H d) | auto | auto |].
  intros [v|c| |] w Hs; auto.
Qed.

Lemma stops_Offscreen_assertOpenGLError msg :
  stops_only S (Offscreen.assertOpenGLError msg).
Proof.
  apply stops_bind; [intros d w _; exact I|intros].
  apply stops_when, stops_printf.
Qed.

Lemma stops_Offscreen_assertEGLError msg :
  stops_only S (Offscreen.assertEGLError msg).
Proof.
  apply stops_bind; [intros d w _; exact I|intros].
  apply stops_when, stops_printf.
Qed.

(** [assertOpenGLError] of multithreads.cpp stops only by exiting, after
    printing a GL error. *)
Lemma stops_Multithreads_assertOpenGLError msg :
  (forall w e, e <> GL_NO_ERROR ->
     S (Exited (-1))
       (mkWorld (trace w) (OpenGLErrorAt e msg :: stdout w) (egl_error w)
          GL_NO_ERROR)) ->
  stops_only S (Multithreads.assertOpenGLError msg).
Proof.
  intros H d w _. rewrite Multithreads_assertOpenGLError_eq.
  destruct (Z.eqb_spec (gl_error w) GL_NO_ERROR); [exact I | now apply H].
Qed.

End StopsOnly.

Ltac stops_step :=
  lazymatch goal with
  | |- stops_only _ (match ?x with pair _ _ => _ end) => destruct x
  | |- stops_only _ (bind _ _) => apply stops_bind; [|intros]
  | |- stops_only _ (ret_ _) => apply stops_ret
  | |- stops_only _ (return_ _) => apply stops_return; intros; exact I
  | |- stops_only _ (std_vector _) =>
      apply stops_std_vector;
      let H := fresh "H" in intros ? H; vm_compute in H; discriminate H
  | |- stops_only _ (when _ _) => apply stops_when
  | |- stops_only _ (fn_body _) => apply stops_fn_body
  | |- stops_only _ (printf _) => apply stops_printf
  | |- stops_only _ (Offscreen.assertOpenGLError _) =>
      apply stops_Offscreen_assertOpenGLError
  | |- stops_only _ (Offscreen.assertEGLError _) =>
      apply stops_Offscreen_assertEGLError
  | |- stops_only _ (Offscreen.LoadShader _ _) => unfold Offscreen.LoadShader
  | |- stops_only _ Offscreen.init_triangle => unfold Offscreen.init_triangle
  | |- stops_only _ (Offscreen.draw_triangle _ _) => unfold Offscreen.draw_triangle
  | |- stops_only _ (Multithreads.assertOpenGLError _) =>
      apply stops_Multithreads_assertOpenGLError;
      let e := fresh "e" in let He := fresh "He" in
      intros ? e He; split;
      [reflexivity | exists e; eexists; split; [reflexivity | exact He]]
  | |- stops_only _ (egl _ _ _) => apply stops_call
  | |- stops_only _ (gl _ _ _) => apply stops_call
  | |- stops_only _ (sys _ _ _) => apply stops_call
  end.

Section SessionA.

Import Multithreads.

Lemma thread_a_pass_stops glCtx l :
  stops_only exits_reporting (thread_a_pass glCtx l).
Proof. unfold thread_a_pass. cbv zeta. repeat stops_step. Qed.

Lemma thread_a_loop_stops d fuel glCtx l w :
  exists s w',
    thread_a_loop fuel glCtx l d w = (Abort s, w') /\ runs_or_exits s w'.
Proof.
  assert (H : hoare d (fun _ => True)
                (while fuel (ret_ true) (thread_a_pass glCtx l))
                (fun _ _ => False) runs_or_exits).
  { apply hoare_while_true.
    - eapply hoare_conseq;
        [apply (thread_a_pass_stops glCtx l d) | auto | auto |].
      intros s w0 Hs. now right.
    - intros. now left. }
  unfold thread_a_loop. cbv zeta. change (negb (1 =? 0)) with true.
  specialize (H w I).
  destruct (while fuel (ret_ true) (thread_a_pass glCtx l) d w) as [[[]|s] w'].
  - destruct H.
  - exists s, w'. auto.
Qed.

Ltac teardown_side := intros; reflexivity.

Lemma thread_a_init_not_teardown glCtx :
  keeps not_teardown never (thread_a_init glCtx).
Proof. keeps_program teardown_side. Qed.

Lemma thread_a_pass_not_teardown glCtx l :
  keeps not_teardown never (thread_a_pass glCtx l).
Proof. keeps_program teardown_side. Qed.

Lemma thread_func_a_not_teardown d fuel glCtx :
  always not_teardown (snd (run (thread_func_a fuel glCtx) d)).
Proof.
  assert (H : hoare d (always not_teardown) (thread_func_a fuel glCtx)
                (fun _ => always not_teardown)
                (fun s w => always not_teardown w \/ never s w)).
  { unfold thread_func_a.
    eapply hoare_bind; [apply thread_a_init_not_teardown|intros l].
    eapply hoare_bind with (R := fun _ _ => False); [|intros ? ? []].
    unfold thread_a_loop. cbv zeta.
    apply keeps_while_true, thread_a_pass_not_teardown. }
  specialize (H init_world (Forall_nil _)). unfold run.
  destruct (thread_func_a fuel glCtx d init_world) as [[a|s] w]; cbn;
    [exact H | destruct H as [H|[]]; exact H].
Qed.

End SessionA.

Section SessionAErrorFree.

Import Multithreads.

Context (d : Driver) (Hd : error_free d).

Lemma raised_error_free a n : raised a (d n) = no_error a.
Proof. unfold raised. now rewrite Hd. Qed.

Lemma thread_a_pass_error_free glCtx l w :
  gl_error w = GL_NO_ERROR ->
  exists w',
    thread_a_pass glCtx l d w = (Normal tt, w') /\
    gl_error w' = GL_NO_ERROR /\
    count_printed finish_saving_img w' = S (count_printed finish_saving_img w).
Proof.
  intros Hgl. unfold thread_a_pass, gl, egl, sys. cbv zeta.
  repeat (exec; rewrite ?raised_error_free, ?Hgl;
          change (no_error GL) with GL_NO_ERROR;
          change (GL_NO_ERROR =? GL_NO_ERROR) with true; cbv iota).
  eexists. split; [reflexivity|]. split; reflexivity.
Qed.

Lemma thread_a_loop_error_free fuel glCtx l w :
  gl_error w = GL_NO_ERROR ->
  exists w',
    thread_a_loop fuel glCtx l d w = (Abort Running, w') /\
    count_printed finish_saving_img w'
    = (count_printed finish_saving_img w + fuel)%nat.
Proof.
  unfold thread_a_loop. cbv zeta. change (negb (1 =? 0)) with true.
  revert w. induction fuel as [|fuel IH]; intros w Hgl; cbn [while].
  - exists w. split; [reflexivity | lia].
  - destruct (thread_a_pass_error_free glCtx l w Hgl) as (w1 & E1 & Hgl1 & Hc1).
    destruct (IH w1 Hgl1) as (w2 & E2 & Hc2).
    exists w2. rewrite bind_eq, ret_eq, bind_eq, E1, E2.
    split; [reflexivity | lia].
Qed.

End SessionAErrorFree.


Section ShaderBuilder.

Context (d : Driver) (w : World) (type : Z) (shaderSrc : string).

Local Abbreviation n := (List.length (trace w)).



End ShaderBuilder.

(** ** Teardown *)

Section Teardown.

Context (d : Driver) (w : World).

Local Abbreviation n := (List.length (trace w)).

Lemma Offscreen_main_teardown_completes display context surface frameBuffer tex :
  exists w',
    Offscreen.main_teardown display context surface frameBuffer tex d w
    = (Normal tt, w') /\
    map fst (trace w') =
      [Call EGL "eglTerminate" [Int display];
       Call EGL "eglDestroyContext" [Int display; Int context];
       Call EGL "eglDestroySurface" [Int display; Int surface];
       Call GL "glDeleteTextures" [Int 1; Ints [tex]];
       Call GL "glDeleteFramebuffers" [Int 1; Ints [frameBuffer]]]
      ++ map fst (trace w) /\
    stdout w' = report "eglTerminate" (d (4 + n)%nat) ++
                report "eglDestroyContext" (d (3 + n)%nat) ++
                report "eglDestroySurface" (d (2 + n)%nat) ++ stdout w.
Proof.
  unfold Offscreen.main_teardown, gl, egl. exec.
  eexists. split; [reflexivity|]. split; reflexivity.
Qed.

(** Splits a statement on checked steps into its cases and runs each. *)
Ltac fatal_cases :=
  cbv zeta; cbn [List.length Nat.sub Nat.add tl]; exec;
  repeat split;
  repeat match goal with
  | H : raised EGL _ <> EGL_SUCCESS |- _ => apply Z.eqb_neq in H
  | H : raised EGL _ = EGL_SUCCESS |- _ => apply Z.eqb_eq in H
  end;
  repeat match goal with
  | H : (_ =? _) = _ |- _ => rewrite H; exec
  end;
  reflexivity.

Lemma thread_b_teardown_steps glCtx surface context frameBuffer tex :
  two_fatal_steps "eglDestroySurface" "eglDestroyContext"
    [Call EGL "eglDestroyContext" [Int (Multithreads.dpy glCtx); Int context];
     Call EGL "eglDestroySurface" [Int (Multithreads.dpy glCtx); Int surface];
     Call GL "glDeleteTextures" [Int 1; Ints [tex]];
     Call GL "glDeleteFramebuffers" [Int 1; Ints [frameBuffer]]]
    d w (Multithreads.thread_b_teardown glCtx surface context frameBuffer tex d w).
Proof.
  unfold two_fatal_steps, Multithreads.thread_b_teardown, gl, egl. fatal_cases.
Qed.

Lemma thread_a_teardown_steps glCtx l :
  two_fatal_steps "eglDestroySurface" "eglDestroyContext"
    [Call EGL "eglDestroyContext"
       [Int (Multithreads.dpy glCtx); Int (Multithreads.context l)];
     Call EGL "eglDestroySurface"
       [Int (Multithreads.dpy glCtx); Int (Multithreads.surface l)];
     Call GL "glDeleteTextures" [Int 1; Ints [Multithreads.mTexture l]];
     Call GL "glDeleteProgram" [Int (Multithreads.mProgram l)];
     Call GL "glDeleteTextures" [Int 1; Ints [Multithreads.tex l]];
     Call GL "glDeleteFramebuffers" [Int 1; Ints [Multithreads.frameBuffer l]]]
    d w (Multithreads.thread_a_teardown glCtx l d w).
Proof.
  unfold two_fatal_steps, Multithreads.thread_a_teardown, gl, egl. fatal_cases.
Qed.

Lemma main_coordinate_step display :
  one_fatal_step "eglTerminate"
    [Call EGL "eglTerminate" [Int display];
     Call SYS "pthread_join" [Str "threadB"; Null];
     Call SYS "pthread_join" [Str "threadA"; Null];
     Call SYS "pthread_create" [Buf "threadB"; Null; Str "thread_func_b"; Buf "glCtx"];
     Call SYS "sleep" [Int 0];
     Call SYS "pthread_create" [Buf "threadA"; Null; Str "thread_func_a"; Buf "glCtx"]]
    d w (Multithreads.main_coordinate display d w).
Proof.
  unfold one_fatal_step, Multithreads.main_coordinate, sys, egl. fatal_cases.
Qed.

End Teardown.

Section OffscreenMain.

Import Offscreen.

(** [main_setup] started on the thread's first call. *)
Lemma Offscreen_main_setup_ends d :
  (exists v w, run main_setup d = (Normal v, w)) \/
  (exists w, run main_setup d = (Abort (Return 0), w) /\ stopped_at_config w) \/
  (exists w, run main_setup d = (Abort Thrown, w) /\ out 0 (d 2%nat) < 0 /\
             names w = ["eglGetDisplay"; "eglInitialize"; "eglGetConfigs"]).
Proof.
  unfold run, main_setup, egl. cbv zeta. exec.
  destruct (Z.ltb_spec (out 0 (d 2%nat)) 0) as [Hv|Hv].
  { right. right. eexists. split; [reflexivity|]. split; [exact Hv | reflexivity]. }
  exec.
  match goal with |- context [if ?c then _ else _] => destruct c end.
  { right. left. exec. eexists. split; [reflexivity|]. eexists. reflexivity. }
  exec.
  match goal with |- context [if ?c then _ else _] => destruct c end.
  { right. left. exec. eexists. split; [reflexivity|]. eexists. reflexivity. }
  exec. left. do 2 eexists. reflexivity.
Qed.

Lemma main_render_target_stops : stops_only no_stop main_render_target.
Proof. unfold main_render_target. cbv zeta. repeat stops_step. Qed.

Lemma main_render_stops : stops_only no_stop main_render.
Proof. unfold main_render. cbv zeta. repeat stops_step. Qed.

Lemma main_readback_stops frameBuffer : stops_only no_stop (main_readback frameBuffer).
Proof. unfold main_readback. cbv zeta. repeat stops_step. Qed.

Lemma Offscreen_main_ends d :
  exists s w,
    run main d = (Abort s, w) /\
    (s = Return 0 /\ (teardown_done w \/ stopped_at_config w) \/
     s = Thrown /\ out 0 (d 2%nat) < 0 /\
     names w = ["eglGetDisplay"; "eglInitialize"; "eglGetConfigs"]).
Proof.
  assert (H : forall v,
             hoare d (fun _ => True)
               (let '(display, context, surface) := v in
                '(frameBuffer, tex) <- main_render_target ;;
                main_render ;;
                main_readback frameBuffer ;;
                main_teardown display context surface frameBuffer tex ;;
                @return_ Z 0)
               (fun _ _ => False)
               (fun s w => s = Return 0 /\ teardown_done w)).
  { intros [[display context] surface].
    eapply hoare_bind with (R := fun _ _ => True).
    { eapply hoare_conseq; [apply main_render_target_stops|auto|auto|].
      intros s w []. }
    intros [frameBuffer tex].
    eapply hoare_bind with (R := fun _ _ => True).
    { eapply hoare_conseq; [apply main_render_stops|auto|auto|].
      intros s w []. }
    intros _.
    eapply hoare_bind with (R := fun _ _ => True).
    { eapply hoare_conseq; [apply main_readback_stops|auto|auto|].
      intros s w []. }
    intros _.
    eapply hoare_bind with (R := fun _ w => teardown_done w).
    { intros w _.
      destruct (Offscreen_main_teardown_completes d w display context surface
                  frameBuffer tex) as (w' & E & Ht & _).
      rewrite E. unfold teardown_done. exists (map (fun e => fn (fst e)) (trace w)).
      rewrite <- (map_map fst fn), Ht, map_app, map_map. reflexivity. }
    intros _. apply hoare_return. auto. }
  unfold main. unfold run at 1. rewrite bind_eq.
  destruct (Offscreen_main_setup_ends d)
    as [(v & w0 & E)|[(w0 & E & Hc)|(w0 & E & Hv & Hn)]];
    unfold run in E; rewrite E.
  - specialize (H v w0 I).
    destruct v as [[display context] surface].
    cbv beta iota in H |- *.
    match goal with
    | |- exists s w', ?m = _ /\ _ => destruct m as [[a|s1] w1]
    end; [destruct H|].
    destruct H as [-> H]. exists (Return 0), w1. auto.
  - exists (Return 0), w0. auto.
  - exists Thrown, w0. auto.
Qed.

End OffscreenMain.

(** ** The coordinator *)

Lemma main_coordinate_schedule d w display :
  map fst (trace (snd (Multithreads.main_coordinate display d w))) =
    [Call EGL "eglTerminate" [Int display];
     Call SYS "pthread_join" [Str "threadB"; Null];
     Call SYS "pthread_join" [Str "threadA"; Null];
     Call SYS "pthread_create" [Buf "threadB"; Null; Str "thread_func_b"; Buf "glCtx"];
     Call SYS "sleep" [Int 0];
     Call SYS "pthread_create" [Buf "threadA"; Null; Str "thread_func_a"; Buf "glCtx"]]
    ++ map fst (trace w).
Proof.
  unfold Multithreads.main_coordinate, sys, egl. exec.
  match goal with |- context [if ?c then _ else _] => destruct c end;
    reflexivity.
Qed.

(** ** The claims on sessions, teardown and the shader builder *)

(** One statement at a time, the GL error flag being simplified at once. *)
Ltac flag_step :=
  rewrite bind_eq;
  first [ rewrite call_eq | rewrite printf_eq
        | rewrite Multithreads_assertOpenGLError_eq ];
  cbn [trace stdout egl_error gl_error List.length];
  repeat match goal with
  | B : raised GL ?x = _ |- context [raised GL ?x] => rewrite !B
  | B : gl_error ?x = _ |- context [gl_error ?x] => rewrite !B
  | B : (?x =? GL_NO_ERROR) = false |- context [?x =? GL_NO_ERROR] => rewrite !B
  end;
  change (GL_NO_ERROR =? GL_NO_ERROR) with true; cbv beta iota.

Section SessionAChecks.

Import Multithreads.

Context (d : Driver) (glCtx : GLContext) (l : locals_a) (w : World).

Local Abbreviation n := (List.length (trace w)).

(** An error pending when a pass starts is found by its first check. *)
Lemma thread_a_pass_pending :
  gl_error w <> GL_NO_ERROR ->
  exists w',
    thread_a_pass glCtx l d w = (Abort (Exited (-1)), w') /\
    stdout w' = OpenGLErrorAt (gl_error w) "glBindFramebuffer" :: stdout w /\
    List.length (trace w') = (1 + n)%nat.
Proof.
  intros H. apply Z.eqb_neq in H.
  unfold thread_a_pass, gl. cbv zeta.
  rewrite bind_eq, call_eq, bind_eq, Multithreads_assertOpenGLError_eq.
  cbn [trace stdout egl_error gl_error List.length]. rewrite !H.
  eexists. split; [reflexivity|]. split; reflexivity.
Qed.

(** The first error that a GL call of a pass raises is found by the check
    that follows the call. *)
Lemma thread_a_pass_detects k e :
  gl_error w = GL_NO_ERROR ->
  In k pass_gl_calls ->
  (forall j, In j pass_gl_calls -> (j < k)%nat ->
             raised GL (d (j + n)%nat) = GL_NO_ERROR) ->
  raised GL (d (k + n)%nat) = e -> e <> GL_NO_ERROR ->
  exists w',
    thread_a_pass glCtx l d w = (Abort (Exited (-1)), w') /\
    hd_error (stdout w') = Some (OpenGLErrorAt e (fst (pass_check k))) /\
    List.length (trace w') = (snd (pass_check k) + n)%nat.
Proof.
  intros Hgl Hk Hbefore He Hne.
  assert (Hb : (e =? GL_NO_ERROR) = false) by (apply Z.eqb_neq; exact Hne).
  assert (Hall : Forall (fun j => (j < k)%nat ->
                                  raised GL (d (j + n)%nat) = GL_NO_ERROR)
                   pass_gl_calls).
  { apply Forall_forall. intros j Hj. now apply Hbefore. }
  clear Hbefore. unfold pass_gl_calls in Hall, Hk.
  repeat match goal with
  | H : Forall _ (_ :: _) |- _ =>
      let H1 := fresh "B" in let H2 := fresh "R" in
      apply Forall_cons_iff in H; destruct H as [H1 H2]
  | H : Forall _ [] |- _ => clear H
  end.
  cbn [In] in Hk.
  repeat (destruct Hk as [<-|Hk];
          [ repeat match goal with
            | B : (_ < _)%nat -> _ |- _ =>
                first [ specialize (B ltac:(lia)) | clear B ]
            end;
            cbn [Nat.add] in *;
            unfold thread_a_pass, gl, egl, sys; cbv zeta;
            repeat flag_step;
            eexists; split; [reflexivity|]; split; reflexivity
          | ]).
  destruct Hk.
Qed.

End SessionAChecks.

Section SessionALoop.

Import Multithreads.

(** A pass that stops ends the loop, and the process with it. *)
Lemma thread_a_loop_first_pass d fuel glCtx l w s w' :
  thread_a_pass glCtx l d w = (Abort s, w') ->
  thread_a_loop (S fuel) glCtx l d w = (Abort s, w').
Proof.
  intros H. unfold thread_a_loop. cbv zeta. change (negb (1 =? 0)) with true.
  cbn [while]. rewrite bind_eq, ret_eq, bind_eq, H. reflexivity.
Qed.

End SessionALoop.

(** C6, as amended: the guard of the loop of session A is never
    modified, so no execution leaves the loop through its guard: however
    long the loop is run, it is still running, or the process has exited
    with -1 right after an [assertOpenGLError] of the loop body printed a
    GL error; the teardown calls after the loop are never made; on a
    driver that raises no error the loop body repeats forever (after
    [fuel] passes, [fuel] images have been saved and the loop is still
    running); and a GL error is detected by the next check of the loop
    body, which prints it under its own label and ends the process with
    [exit(-1)]: the first error that a GL call of a pass raises, at the
    check that follows the call, and an error pending when a pass starts,
    at the first check of the pass. *)
Theorem thread_a_loop_never_ends_normally :
  (forall d fuel glCtx l w,
      exists s w',
        Multithreads.thread_a_loop fuel glCtx l d w = (Abort s, w') /\
        runs_or_exits s w') /\
  (forall d fuel glCtx,
      always not_teardown (snd (run (Multithreads.thread_func_a fuel glCtx) d))) /\
  (forall d fuel glCtx l w,
      error_free d -> gl_error w = GL_NO_ERROR ->
      exists w',
        Multithreads.thread_a_loop fuel glCtx l d w = (Abort Running, w') /\
        count_printed finish_saving_img w'
        = (count_printed finish_saving_img w + fuel)%nat) /\
  (forall d fuel glCtx l w k e,
      gl_error w = GL_NO_ERROR ->
      In k pass_gl_calls ->
      (forall j, In j pass_gl_calls -> (j < k)%nat ->
                 raised GL (d (j + List.length (trace w))%nat) = GL_NO_ERROR) ->
      raised GL (d (k + List.length (trace w))%nat) = e -> e <> GL_NO_ERROR ->
      exists w',
        Multithreads.thread_a_loop (S fuel) glCtx l d w
        = (Abort (Exited (-1)), w') /\
        hd_error (stdout w') = Some (OpenGLErrorAt e (fst (pass_check k))) /\
        List.length (trace w')
        = (snd (pass_check k) + List.length (trace w))%nat) /\
  (forall d fuel glCtx l w,
      gl_error w <> GL_NO_ERROR ->
      exists w',
        Multithreads.thread_a_loop (S fuel) glCtx l d w
        = (Abort (Exited (-1)), w') /\
        stdout w' = OpenGLErrorAt (gl_error w) "glBindFramebuffer" :: stdout w /\
        List.length (trace w') = (1 + List.length (trace w))%nat).
Proof.
  split; [|split; [|split; [|split]]].
  - intros. apply thread_a_loop_stops.
  - intros. apply thread_func_a_not_teardown.
  - intros. now apply thread_a_loop_error_free.
  - intros d fuel glCtx l w k e Hgl Hk Hb He Hne.
    destruct (thread_a_pass_detects d glCtx l w k e Hgl Hk Hb He Hne)
      as (w' & E & H).
    exists w'. split; [now apply thread_a_loop_first_pass | exact H].
  - intros d fuel glCtx l w Hgl.
    destruct (thread_a_pass_pending d glCtx l w Hgl) as (w' & E & H).
    exists w'. split; [now apply thread_a_loop_first_pass | exact H].
Qed.

(** C6, witness: three passes on the driver that never fails; and a
    [glReadPixels] that fails with [GL_OUT_OF_MEMORY] in a first pass. *)
Lemma thread_a_loop_never_ends_normally_witness :
  (exists w',
      Multithreads.thread_a_loop 3 glCtx1 locals1 driver_ok init_world
      = (Abort Running, w') /\
      count_printed finish_saving_img w' = 3%nat) /\
  (exists w',
      Multithreads.thread_a_loop 3 glCtx1 locals1
        (failing_at 18 GL_OUT_OF_MEMORY) init_world
      = (Abort (Exited (-1)), w') /\
      hd_error (stdout w') = Some (OpenGLErrorAt GL_OUT_OF_MEMORY "glReadPixels") /\
      List.length (trace w') = 19%nat).
Proof.
  destruct thread_a_loop_never_ends_normally as (_ & _ & H & H' & _). split.
  - apply (H driver_ok 3%nat glCtx1 locals1 init_world).
    + intros n. reflexivity.
    + reflexivity.
  - apply (H' (failing_at 18 GL_OUT_OF_MEMORY) 2%nat glCtx1 locals1 init_world
              18%nat GL_OUT_OF_MEMORY).
    + reflexivity.
    + cbn. tauto.
    + intros j _ Hj. cbn [List.length trace init_world].
      rewrite Nat.add_0_r. unfold failing_at.
      destruct (Nat.eqb_spec j 18); [lia | reflexivity].
    + reflexivity.
    + discriminate.
Defined.

(** C6, counterexample to the claim as stated: an execution that
    reaches the loop and does not repeat its body forever.  The driver
    answers the first [glDrawElements] (the thread's call number 55) with
    [GL_OUT_OF_MEMORY]; [assertOpenGLError] prints the error and exits
    the process in the first pass, before any image is saved. *)
Lemma thread_a_loop_exit_counterexample :
  fst (run (Multithreads.thread_func_a 3 glCtx1) (failing_at 55 GL_OUT_OF_MEMORY))
  = Abort (Exited (-1)) /\
  fst (run (Multithreads.thread_func_a 3 glCtx1) (failing_at 55 GL_OUT_OF_MEMORY))
  <> Abort Running /\
  nth 39 (names (snd (run (Multithreads.thread_func_a 3 glCtx1)
                        (failing_at 55 GL_OUT_OF_MEMORY)))) "" = "glClearColor" /\
  nth 55 (names (snd (run (Multithreads.thread_func_a 3 glCtx1)
                        (failing_at 55 GL_OUT_OF_MEMORY)))) "" = "glDrawElements" /\
  List.length (names (snd (run (Multithreads.thread_func_a 3 glCtx1)
                             (failing_at 55 GL_OUT_OF_MEMORY)))) = 56%nat /\
  hd_error (stdout (snd (run (Multithreads.thread_func_a 3 glCtx1)
                           (failing_at 55 GL_OUT_OF_MEMORY))))
  = Some (OpenGLErrorAt GL_OUT_OF_MEMORY "glDrawElements") /\
  count_printed finish_saving_img
    (snd (run (Multithreads.thread_func_a 3 glCtx1)
            (failing_at 55 GL_OUT_OF_MEMORY))) = 0%nat.
Proof. vm_compute. repeat split. discriminate. Qed.

(** C4, as amended.  In the single-context variant every EGL error
    detected during teardown (surface destruction, context destruction,
    display termination) is reported with its code and call-site name and
    is not fatal: the teardown of [main] always makes all of its calls,
    printing one report per failed EGL call, and [main], unless it
    stopped before the render target was built (at config selection, or
    aborted by the exception of a negative config count), returns 0 with
    the whole teardown done.  In the two-session variant an EGL error
    detected during teardown is reported and is fatal: in the teardown of
    session B, in the teardown after the loop of session A and at the
    display termination of [main], the first checked step that raises an
    error is reported, the process exits with -1 and the later steps are
    not made.  In both variants the framebuffer, texture and program
    deletions are followed by no check: what these calls raise is neither
    reported nor fatal. *)
Theorem teardown_errors :
  (forall d w display context surface frameBuffer tex,
      exists w',
        Offscreen.main_teardown display context surface frameBuffer tex d w
        = (Normal tt, w') /\
        map fst (trace w') =
          [Call EGL "eglTerminate" [Int display];
           Call EGL "eglDestroyContext" [Int display; Int context];
           Call EGL "eglDestroySurface" [Int display; Int surface];
           Call GL "glDeleteTextures" [Int 1; Ints [tex]];
           Call GL "glDeleteFramebuffers" [Int 1; Ints [frameBuffer]]]
          ++ map fst (trace w) /\
        stdout w' =
          report "eglTerminate" (d (4 + List.length (trace w))%nat) ++
          report "eglDestroyContext" (d (3 + List.length (trace w))%nat) ++
          report "eglDestroySurface" (d (2 + List.length (trace w))%nat) ++
          stdout w) /\
  (forall d,
      exists s w,
        run Offscreen.main d = (Abort s, w) /\
        (s = Return 0 /\ (teardown_done w \/ stopped_at_config w) \/
         s = Thrown /\ out 0 (d 2%nat) < 0 /\
         names w = ["eglGetDisplay"; "eglInitialize"; "eglGetConfigs"])) /\
  (forall d w glCtx surface context frameBuffer tex,
      two_fatal_steps "eglDestroySurface" "eglDestroyContext"
        [Call EGL "eglDestroyContext" [Int (Multithreads.dpy glCtx); Int context];
         Call EGL "eglDestroySurface" [Int (Multithreads.dpy glCtx); Int surface];
         Call GL "glDeleteTextures" [Int 1; Ints [tex]];
         Call GL "glDeleteFramebuffers" [Int 1; Ints [frameBuffer]]]
        d w
        (Multithreads.thread_b_teardown glCtx surface context frameBuffer tex d w)) /\
  (forall d w glCtx l,
      two_fatal_steps "eglDestroySurface" "eglDestroyContext"
        [Call EGL "eglDestroyContext"
           [Int (Multithreads.dpy glCtx); Int (Multithreads.context l)];
         Call EGL "eglDestroySurface"
           [Int (Multithreads.dpy glCtx); Int (Multithreads.surface l)];
         Call GL "glDeleteTextures" [Int 1; Ints [Multithreads.mTexture l]];
         Call GL "glDeleteProgram" [Int (Multithreads.mProgram l)];
         Call GL "glDeleteTextures" [Int 1; Ints [Multithreads.tex l]];
         Call GL "glDeleteFramebuffers" [Int 1; Ints [Multithreads.frameBuffer l]]]
        d w (Multithreads.thread_a_teardown glCtx l d w)) /\
  (forall d w display,
      one_fatal_step "eglTerminate"
        [Call EGL "eglTerminate" [Int display];
         Call SYS "pthread_join" [Str "threadB"; Null];
         Call SYS "pthread_join" [Str "threadA"; Null];
         Call SYS "pthread_create"
           [Buf "threadB"; Null; Str "thread_func_b"; Buf "glCtx"];
         Call SYS "sleep" [Int 0];
         Call SYS "pthread_create"
           [Buf "threadA"; Null; Str "thread_func_a"; Buf "glCtx"]]
        d w (Multithreads.main_coordinate display d w)).
Proof.
  split; [|split; [|split; [|split]]].
  - intros. apply Offscreen_main_teardown_completes.
  - intros. apply Offscreen_main_ends.
  - intros. apply thread_b_teardown_steps.
  - intros. apply thread_a_teardown_steps.
  - intros. apply main_coordinate_step.
Qed.

(** C4, witness: the teardown of session B when the driver answers
    [eglDestroySurface] with [EGL_BAD_SURFACE], and when it answers
    [eglDestroyContext] with [EGL_BAD_CONTEXT]. *)
Lemma teardown_errors_witness :
  (fst (Multithreads.thread_b_teardown glCtx1 1 1 1 1
          (failing_at 2 EGL_BAD_SURFACE) init_world) = Abort (Exited (-1)) /\
   map fst (trace (snd (Multithreads.thread_b_teardown glCtx1 1 1 1 1
                          (failing_at 2 EGL_BAD_SURFACE) init_world))) =
     [Call EGL "eglDestroySurface" [Int 1; Int 1];
      Call GL "glDeleteTextures" [Int 1; Ints [1]];
      Call GL "glDeleteFramebuffers" [Int 1; Ints [1]]] /\
   stdout (snd (Multithreads.thread_b_teardown glCtx1 1 1 1 1
                  (failing_at 2 EGL_BAD_SURFACE) init_world))
   = [EGLErrorAt EGL_BAD_SURFACE "eglDestroySurface"]) /\
  (fst (Multithreads.thread_b_teardown glCtx1 1 1 1 1
          (failing_at 3 EGL_BAD_CONTEXT) init_world) = Abort (Exited (-1)) /\
   stdout (snd (Multithreads.thread_b_teardown glCtx1 1 1 1 1
                  (failing_at 3 EGL_BAD_CONTEXT) init_world))
   = [EGLErrorAt EGL_BAD_CONTEXT "eglDestroyContext"]).
Proof.
  destruct teardown_errors as (_ & _ & H & _). split.
  - destruct (H (failing_at 2 EGL_BAD_SURFACE) init_world glCtx1 1 1 1 1)
      as (H1 & _).
    apply H1. cbn. discriminate.
  - destruct (H (failing_at 3 EGL_BAD_CONTEXT) init_world glCtx1 1 1 1 1)
      as (_ & H2 & _).
    destruct H2 as (Hs & _ & Ho).
    + reflexivity.
    + cbn. discriminate.
    + split; [exact Hs | exact Ho].
Defined.

(** C4, counterexample to the claim as stated: in the two-session
    variant a teardown error aborts the later steps.  The driver answers
    the [eglDestroySurface] of session B (the thread's call number 40)
    with [EGL_BAD_SURFACE]; the error is reported, the process exits with
    -1, and [eglDestroyContext] is never called.  And a deletion step is
    not checked: when the driver answers the [glDeleteFramebuffers] of the
    single-context variant (call number 45) with [GL_INVALID_VALUE],
    [main] makes its 50 calls and returns 0 and no error is printed. *)
Lemma thread_func_b_teardown_counterexample :
  fst (run (Multithreads.thread_func_b glCtx1) (failing_at 40 EGL_BAD_SURFACE))
  = Abort (Exited (-1)) /\
  nth 40 (names (snd (run (Multithreads.thread_func_b glCtx1)
                        (failing_at 40 EGL_BAD_SURFACE)))) "" = "eglDestroySurface" /\
  List.length (names (snd (run (Multithreads.thread_func_b glCtx1)
                             (failing_at 40 EGL_BAD_SURFACE)))) = 41%nat /\
  ~ In "eglDestroyContext"
       (names (snd (run (Multithreads.thread_func_b glCtx1)
                      (failing_at 40 EGL_BAD_SURFACE)))) /\
  hd_error (stdout (snd (run (Multithreads.thread_func_b glCtx1)
                           (failing_at 40 EGL_BAD_SURFACE))))
  = Some (EGLErrorAt EGL_BAD_SURFACE "eglDestroySurface") /\
  fst (run Offscreen.main (failing_at 45 GL_INVALID_VALUE)) = Abort (Return 0) /\
  nth 45 (names (snd (run Offscreen.main (failing_at 45 GL_INVALID_VALUE)))) ""
  = "glDeleteFramebuffers" /\
  List.length (names (snd (run Offscreen.main (failing_at 45 GL_INVALID_VALUE))))
  = 50%nat /\
  output (snd (run Offscreen.main (failing_at 45 GL_INVALID_VALUE)))
  = [SupportColorFormat 1 1].
Proof.
  vm_compute. repeat split.
  intros H. repeat (destruct H as [H|H]; [discriminate H|]). exact H.
Qed.

(** C5: what the coordinator of multithreads.cpp does, whatever the
    driver answers: it starts session A, calls [sleep] with the
    [unsigned int] that 0.5 converts to, which is 0, starts session B,
    joins A, joins B, and only then releases the display connection,
    once.  The order is the claimed one; the delay is zero. *)
Theorem main_coordinate_sleeps_zero :
  (forall d w display,
      map fst (trace (snd (Multithreads.main_coordinate display d w))) =
        [Call EGL "eglTerminate" [Int display];
         Call SYS "pthread_join" [Str "threadB"; Null];
         Call SYS "pthread_join" [Str "threadA"; Null];
         Call SYS "pthread_create"
           [Buf "threadB"; Null; Str "thread_func_b"; Buf "glCtx"];
         Call SYS "sleep" [Int 0];
         Call SYS "pthread_create"
           [Buf "threadA"; Null; Str "thread_func_a"; Buf "glCtx"]]
        ++ map fst (trace w)) /\
  double_to_uint (1 # 2) = 0 /\
  skipn 9 (calls (snd (run Multithreads.main driver_ok))) =
    [Call SYS "pthread_create"
       [Buf "threadA"; Null; Str "thread_func_a"; Buf "glCtx"];
     Call SYS "sleep" [Int 0];
     Call SYS "pthread_create"
       [Buf "threadB"; Null; Str "thread_func_b"; Buf "glCtx"];
     Call SYS "pthread_join" [Str "threadA"; Null];
     Call SYS "pthread_join" [Str "threadB"; Null];
     Call EGL "eglTerminate" [Int 1]].
Proof.
  split; [|split].
  - apply main_coordinate_schedule.
  - reflexivity.
  - vm_compute. reflexivity.
Qed.

(* ================================================================== *)
(** * Further properties of the code *)

(** ** More on the pixel format helper *)

Section PixelFormatMore.

(** A diagnostic is printed exactly when the result is 0. *)
Lemma glUtilsPixelBitSize_zero_iff_diagnostic format type :
  fst (glUtilsPixelBitSize format type) = 0 <->
  snd (glUtilsPixelBitSize format type) <> [].
Proof.
  unfold glUtilsPixelBitSize.
  destruct (case_of type byte_types), (case_of type short_types),
    (case_of type int_types), (case_of format formats1),
    (case_of format formats2), (case_of format formats3),
    (case_of format formats4); vm_compute; split; congruence.
Qed.

(** X1: the bit size is fixed by the type alone for the 16-bit and 32-bit
    types (the format is not looked at, so an unknown format is not
    reported), it is 8 bits per channel for the byte types, and
    [glUtilsPixelBitSize] prints a diagnostic exactly when it returns 0. *)
Theorem glUtilsPixelBitSize_table format type :
  (In type short_types -> glUtilsPixelBitSize format type = (16, [])) /\
  (In type int_types -> glUtilsPixelBitSize format type = (32, [])) /\
  (In type byte_types -> known_format format = true ->
   glUtilsPixelBitSize format type = (8 * channels format, []) /\
   1 <= channels format <= 4) /\
  (fst (glUtilsPixelBitSize format type) = 0 <->
   snd (glUtilsPixelBitSize format type) <> []).
Proof.
  split; [|split; [|split]].
  - intros H. cbn in H.
    repeat (destruct H as [<-|H]; [reflexivity|]). destruct H.
  - intros H. cbn in H.
    repeat (destruct H as [<-|H]; [reflexivity|]). destruct H.
  - intros H Hf. unfold known_format, channels in *.
    assert (Hb : case_of type byte_types = true).
    { cbn in H. repeat (destruct H as [<-|H]; [reflexivity|]). destruct H. }
    unfold glUtilsPixelBitSize. rewrite Hb.
    destruct (case_of format formats1), (case_of format formats2),
      (case_of format formats3), (case_of format formats4);
      try discriminate Hf; vm_compute; repeat split; congruence.
  - apply glUtilsPixelBitSize_zero_iff_diagnostic.
Qed.

(** X1, witness. *)
Lemma glUtilsPixelBitSize_table_witness :
  glUtilsPixelBitSize 7 GL_UNSIGNED_SHORT_5_6_5 = (16, []) /\
  glUtilsPixelBitSize 7 GL_FLOAT = (32, []) /\
  glUtilsPixelBitSize GL_RGB GL_UNSIGNED_BYTE = (24, []).
Proof.
  destruct (glUtilsPixelBitSize_table 7 GL_UNSIGNED_SHORT_5_6_5) as (H1 & _).
  destruct (glUtilsPixelBitSize_table 7 GL_FLOAT) as (_ & H2 & _).
  destruct (glUtilsPixelBitSize_table GL_RGB GL_UNSIGNED_BYTE) as (_ & _ & H3 & _).
  split; [|split].
  - apply H1. cbn. tauto.
  - apply H2. cbn. tauto.
  - apply H3; [cbn; tauto | reflexivity].
Defined.

(** What [pixelDataSize] returns and prints when the total fits a
    [GLsizei]. *)
Lemma pixelDataSize_in_range width height format type :
  0 < width -> 0 < height -> height <= INT_MAX ->
  round_up4 (fst (glUtilsPixelBitSize format type) / 8 * width) * height
  <= INT_MAX ->
  pixelDataSize width height format type =
  (round_up4 (fst (glUtilsPixelBitSize format type) / 8 * width) * height,
   snd (glUtilsPixelBitSize format type) ++
   (if fst (glUtilsPixelBitSize format type) / 8 =? 0
    then [UnknownPixelSize width height format type] else [])).
Proof.
  intros Wpos Hpos Hmax Hfit.
  destruct (glUtilsPixelBitSize_bytes format type) as [Hb Hshift].
  unfold pixelDataSize.
  destruct (Z.leb_spec width 0); [lia|].
  destruct (Z.leb_spec height 0); [lia|]. cbn [orb].
  destruct (glUtilsPixelBitSize format type) as [bits diag] eqn:E.
  cbn [fst snd] in *. cbv zeta. rewrite Hshift.
  remember (bits / 8) as bytes eqn:Eb in *.
  remember (bytes * width) as line eqn:El in *.
  destruct (round_up4_smallest line) as (_ & Hle & _).
  assert (Hline : 0 <= line <= INT_MAX) by (unfold INT_MAX in *; nia).
  assert (Hmul : int_mul bytes width = line).
  { unfold int_mul. rewrite <- El. apply to_int_small.
    unfold INT_MIN, INT_MAX in *. lia. }
  rewrite Hmul.
  pose proof (aligned_linesize_round_up4 line Hline) as Ha.
  cbv zeta in Ha. rewrite Ha.
  unfold INT_MIN, INT_MAX in *.
  rewrite (to_size_t_small height) by nia.
  unfold size_mul. rewrite to_size_t_small by nia.
  rewrite to_int_small by (unfold INT_MIN, INT_MAX; nia).
  destruct (bytes =? 0); [reflexivity | now rewrite app_nil_r].
Qed.

(** X2: when the total fits a [GLsizei], the buffer that [pixelDataSize]
    sizes holds [height] tightly packed rows and wastes less than 4 bytes
    per row; its size is a multiple of 4; and the "unknown pixel size"
    line is printed exactly when the pixel size is 0 bytes. *)
Theorem pixelDataSize_padding width height format type :
  0 < width -> 0 < height -> height <= INT_MAX ->
  round_up4 (fst (glUtilsPixelBitSize format type) / 8 * width) * height
  <= INT_MAX ->
  let line := fst (glUtilsPixelBitSize format type) / 8 * width in
  let size := fst (pixelDataSize width height format type) in
  line * height <= size < (line + 4) * height /\
  (4 | size) /\
  (In (UnknownPixelSize width height format type)
      (snd (pixelDataSize width height format type)) <->
   fst (glUtilsPixelBitSize format type) = 0).
Proof.
  intros Wpos Hpos Hmax Hfit line size. subst size.
  rewrite (pixelDataSize_in_range width height format type Wpos Hpos Hmax Hfit).
  cbn [fst snd]. fold line.
  assert (Hr : line <= round_up4 line < line + 4 /\ (4 | round_up4 line)).
  { unfold round_up4.
    pose proof (Z.div_mod (line + 3) 4 ltac:(lia)).
    pose proof (Z.mod_pos_bound (line + 3) 4 ltac:(lia)).
    split; [lia|]. exists ((line + 3) / 4). ring. }
  destruct Hr as [Hr [q Hq]].
  split; [nia|]. split.
  - exists (q * height). rewrite Hq. ring.
  - pose proof (glUtilsPixelBitSize_values format type) as Hv.
    pose proof (glUtilsPixelBitSize_zero_iff_diagnostic format type) as Hd.
    rewrite in_app_iff. cbn [In] in Hv.
    destruct Hv as [E|[E|[E|[E|[E|[]]]]]]; rewrite <- E in *; cbn.
    + split; [reflexivity|]. intros _. right. now left.
    + split; [|discriminate]. intros [Hin|[]].
      destruct Hd as [_ Hd]. destruct (snd (glUtilsPixelBitSize format type));
        [destruct Hin | exfalso; assert (8 = 0) by (apply Hd; discriminate); lia].
    + split; [|discriminate]. intros [Hin|[]].
      destruct Hd as [_ Hd]. destruct (snd (glUtilsPixelBitSize format type));
        [destruct Hin | exfalso; assert (16 = 0) by (apply Hd; discriminate); lia].
    + split; [|discriminate]. intros [Hin|[]].
      destruct Hd as [_ Hd]. destruct (snd (glUtilsPixelBitSize format type));
        [destruct Hin | exfalso; assert (24 = 0) by (apply Hd; discriminate); lia].
    + split; [|discriminate]. intros [Hin|[]].
      destruct Hd as [_ Hd]. destruct (snd (glUtilsPixelBitSize format type));
        [destruct Hin | exfalso; assert (32 = 0) by (apply Hd; discriminate); lia].
Qed.

(** X2, witness: 5 x 3 RGB: 15-byte rows, 48 bytes. *)
Lemma pixelDataSize_padding_witness :
  15 * 3 <= fst (pixelDataSize 5 3 GL_RGB GL_UNSIGNED_BYTE) < (15 + 4) * 3 /\
  (4 | fst (pixelDataSize 5 3 GL_RGB GL_UNSIGNED_BYTE)) /\
  (In (UnknownPixelSize 5 3 GL_RGB GL_UNSIGNED_BYTE)
      (snd (pixelDataSize 5 3 GL_RGB GL_UNSIGNED_BYTE)) <->
   fst (glUtilsPixelBitSize GL_RGB GL_UNSIGNED_BYTE) = 0).
Proof.
  apply (pixelDataSize_padding 5 3 GL_RGB GL_UNSIGNED_BYTE);
    unfold INT_MAX; cbn; lia.
Defined.

(** X3: the rounding step of the inline readback sizing never adds
    anything, because 4 * width is already a multiple of 4: the stride is
    [nr_channels * width] as an [int]; it is exactly 4 * width, and the
    buffer exactly 4 * width * height bytes, whenever these fit an [int]. *)
Theorem readback_stride_exact width height :
  readback_stride width = int_mul 4 width /\
  (0 <= width -> 4 * width <= INT_MAX -> readback_stride width = 4 * width) /\
  (0 <= width -> 0 <= height -> 4 * width * height <= INT_MAX ->
   4 * width <= INT_MAX ->
   readback_bufferSize width height = 4 * width * height).
Proof.
  assert (H0 : readback_stride width = int_mul 4 width).
  { unfold readback_stride. cbv zeta.
    destruct (to_int_shift (4 * width)) as [k Hk].
    pose proof (to_int_range (4 * width)) as Hr.
    fold (int_mul 4 width) in Hk, Hr.
    assert (Hrem : int_rem (int_mul 4 width) 4 = 0).
    { unfold int_rem. rewrite Hk.
      replace (4 * width + k * 2 ^ 32) with ((width + k * 2 ^ 30) * 4) by ring.
      apply Z.rem_mul. lia. }
    rewrite Hrem. cbn [Z.eqb negb]. unfold int_add. rewrite Z.add_0_r.
    now apply to_int_small. }
  split; [exact H0|]. split.
  - intros Hw Hf. rewrite H0. apply to_int_small. unfold INT_MIN, INT_MAX in *. lia.
  - intros Hw Hh Hf Hf4. unfold readback_bufferSize. rewrite H0.
    unfold int_mul at 2. rewrite (to_int_small (4 * width))
      by (unfold INT_MIN, INT_MAX in *; lia).
    apply to_int_small. unfold INT_MIN, INT_MAX in *. nia.
Qed.

(** X3, witness: 512 x 512. *)
Lemma readback_stride_exact_witness :
  readback_stride 512 = 4 * 512 /\
  readback_bufferSize 512 512 = 4 * 512 * 512.
Proof.
  destruct (readback_stride_exact 512 512) as (_ & H1 & H2). split.
  - apply H1; unfold INT_MAX; lia.
  - apply H2; unfold INT_MAX; lia.
Defined.

End PixelFormatMore.

(** ** More on the shader builder *)

Section ShaderBuilderMore.

Ltac stops_walk := cbv zeta; repeat stops_step.

Lemma Offscreen_LoadShader_stops type src :
  stops_only no_stop (Offscreen.LoadShader type src).
Proof. unfold Offscreen.LoadShader. stops_walk. Qed.

Lemma Multithreads_LoadShader_stops type src :
  stops_only no_stop (Multithreads.LoadShader type src).
Proof. unfold Multithreads.LoadShader. stops_walk. Qed.

(** A computation that never stops early has a value. *)
Lemma no_stop_value {A} (m : M A) d w :
  stops_only no_stop m -> exists v w', m d w = (Normal v, w').
Proof.
  intros H. specialize (H d w I).
  destruct (m d w) as [[v|s] w']; [eauto | destruct H].
Qed.

Lemma Offscreen_LoadShader_result d w type src :
  exists w',
    Offscreen.LoadShader type src d w
    = (Normal (stage_result d (List.length (trace w))), w') /\
    (stage_result d (List.length (trace w)) <> 0 ->
     stdout w' = stdout w /\
     map fst (trace w') =
       [Call GL "glGetShaderiv" [Int (ret (d (List.length (trace w)))); Int GL_COMPILE_STATUS];
        Call GL "glCompileShader" [Int (ret (d (List.length (trace w))))];
        Call GL "glShaderSource" [Int (ret (d (List.length (trace w)))); Int 1; Str src; Null];
        Call GL "glCreateShader" [Int type]] ++ map fst (trace w)) /\
    (ret (d (List.length (trace w))) = 0 ->
     stdout w' = stdout w /\
     map fst (trace w') = Call GL "glCreateShader" [Int type] :: map fst (trace w)).
Proof.
  unfold stage_result, Offscreen.LoadShader, gl. rewrite fn_body_eq. exec.
  cbn [Nat.add].
  destruct (Z.eqb_spec (ret (d (List.length (trace w)))) 0) as [E|E]; exec.
  { eexists. split; [reflexivity|]. split; [congruence|]. intros _.
    split; reflexivity. }
  destruct (Z.eqb_spec (out 0 (d (S (S (S (List.length (trace w))))))) 0)
    as [E'|E']; exec.
  - destruct (1 <? out 0 (d (S (S (S (S (List.length (trace w)))))))); exec;
      eexists; (split; [reflexivity|]); (split; [congruence|]); intros; contradiction.
  - eexists. split; [reflexivity|]. split; [intros _; split; reflexivity|].
    intros; contradiction.
Qed.

Lemma Multithreads_LoadShader_result d w type src :
  exists w',
    Multithreads.LoadShader type src d w
    = (Normal (stage_result d (List.length (trace w))), w') /\
    (stage_result d (List.length (trace w)) <> 0 ->
     stdout w' = stdout w /\
     map fst (trace w') =
       [Call GL "glGetShaderiv" [Int (ret (d (List.length (trace w)))); Int GL_COMPILE_STATUS];
        Call GL "glCompileShader" [Int (ret (d (List.length (trace w))))];
        Call GL "glShaderSource" [Int (ret (d (List.length (trace w)))); Int 1; Str src; Null];
        Call GL "glCreateShader" [Int type]] ++ map fst (trace w)) /\
    (ret (d (List.length (trace w))) = 0 ->
     stdout w' = stdout w /\
     map fst (trace w') = Call GL "glCreateShader" [Int type] :: map fst (trace w)).
Proof.
  unfold stage_result, Multithreads.LoadShader, gl. rewrite fn_body_eq. exec.
  cbn [Nat.add].
  destruct (Z.eqb_spec (ret (d (List.length (trace w)))) 0) as [E|E]; exec.
  { eexists. split; [reflexivity|]. split; [congruence|]. intros _.
    split; reflexivity. }
  destruct (Z.eqb_spec (out 0 (d (S (S (S (List.length (trace w))))))) 0)
    as [E'|E']; exec.
  - destruct (1 <? out 0 (d (S (S (S (S (List.length (trace w)))))))); exec;
      eexists; (split; [reflexivity|]); (split; [congruence|]); intros; contradiction.
  - eexists. split; [reflexivity|]. split; [intros _; split; reflexivity|].
    intros; contradiction.
Qed.

End ShaderBuilderMore.

(** X4: [LoadShader] (the same in both files) always returns: 0 when
    [glCreateShader] yields no object (then it makes no other call), the
    stage object when the driver reports it compiled (then it prints
    nothing and does not delete the object), 0 otherwise. *)
Theorem LoadShader_result d w type src :
  (exists w',
      Offscreen.LoadShader type src d w
      = (Normal (stage_result d (List.length (trace w))), w') /\
      (stage_result d (List.length (trace w)) <> 0 ->
       stdout w' = stdout w /\
       map fst (trace w') =
         [Call GL "glGetShaderiv"
            [Int (ret (d (List.length (trace w)))); Int GL_COMPILE_STATUS];
          Call GL "glCompileShader" [Int (ret (d (List.length (trace w))))];
          Call GL "glShaderSource"
            [Int (ret (d (List.length (trace w)))); Int 1; Str src; Null];
          Call GL "glCreateShader" [Int type]] ++ map fst (trace w)) /\
      (ret (d (List.length (trace w))) = 0 ->
       stdout w' = stdout w /\
       map fst (trace w') =
         Call GL "glCreateShader" [Int type] :: map fst (trace w))) /\
  (exists w',
      Multithreads.LoadShader type src d w
      = (Normal (stage_result d (List.length (trace w))), w') /\
      (stage_result d (List.length (trace w)) <> 0 ->
       stdout w' = stdout w /\
       map fst (trace w') =
         [Call GL "glGetShaderiv"
            [Int (ret (d (List.length (trace w)))); Int GL_COMPILE_STATUS];
          Call GL "glCompileShader" [Int (ret (d (List.length (trace w))))];
          Call GL "glShaderSource"
            [Int (ret (d (List.length (trace w)))); Int 1; Str src; Null];
          Call GL "glCreateShader" [Int type]] ++ map fst (trace w)) /\
      (ret (d (List.length (trace w))) = 0 ->
       stdout w' = stdout w /\
       map fst (trace w') =
         Call GL "glCreateShader" [Int type] :: map fst (trace w))).
Proof.
  split.
  - apply Offscreen_LoadShader_result.
  - apply Multithreads_LoadShader_result.
Qed.

(** X4, witness: the driver that answers every call with success hands
    out stage object 1, which [LoadShader] returns after four calls. *)
Lemma LoadShader_result_witness :
  exists w',
    Offscreen.LoadShader GL_VERTEX_SHADER "void main(){}" driver_ok init_world
    = (Normal 1, w') /\
    stdout w' = [] /\
    map fst (trace w') =
      [Call GL "glGetShaderiv" [Int 1; Int GL_COMPILE_STATUS];
       Call GL "glCompileShader" [Int 1];
       Call GL "glShaderSource" [Int 1; Int 1; Str "void main(){}"; Null];
       Call GL "glCreateShader" [Int GL_VERTEX_SHADER]].
Proof.
  destruct (LoadShader_result driver_ok init_world GL_VERTEX_SHADER
              "void main(){}") as [(w' & E & H & _) _].
  exists w'. split; [exact E|]. apply H. cbn. discriminate.
Defined.

Section ProgramBuilder.

Context (d : Driver).

(** The part of [CompileProgram] / [init_triangle] after the two stages. *)
Lemma link_tail_result vertexShader fragmentShader w :
  exists v w',
    fn_body (
      programObject <- gl "glCreateProgram" [] ret ;;
      when (programObject =? 0) (return_ 0) ;;
      gl "glAttachShader" [Int programObject; Int vertexShader] ignore ;;
      gl "glAttachShader" [Int programObject; Int fragmentShader] ignore ;;
      gl "glLinkProgram" [Int programObject] ignore ;;
      linked <- gl "glGetProgramiv" [Int programObject; Int GL_LINK_STATUS] (out 0) ;;
      when (linked =? 0) (
        infoLen <- gl "glGetProgramiv" [Int programObject; Int GL_INFO_LOG_LENGTH] (out 0) ;;
        when (1 <? infoLen) (
          infoLog <- gl "glGetProgramInfoLog" [Int programObject; Int infoLen; Null] text ;;
          printf (ErrorLinkingProgram infoLog)) ;;
        gl "glDeleteProgram" [Int programObject] ignore ;;
        return_ 0) ;;
      return_ programObject) d w = (Normal v, w') /\
    program_result v w' /\
    (v <> 0 -> stdout w' = stdout w).
Proof.
  unfold gl, program_result. rewrite fn_body_eq. exec.
  destruct (Z.eqb_spec (ret (d (List.length (trace w)))) 0) as [E|E]; exec.
  { do 2 eexists. split; [reflexivity|]. cbn [trace]. split; [|congruence].
    right. left. auto. }
  destruct (Z.eqb_spec (out 0 (d (S (S (S (S (List.length (trace w)))))))) 0)
    as [E'|E']; exec.
  - destruct (1 <? out 0 (d (S (S (S (S (S (List.length (trace w))))))))); exec;
      do 2 eexists; (split; [reflexivity|]); cbn [trace];
      (split; [|congruence]); right; right; eauto.
  - do 2 eexists. split; [reflexivity|]. cbn [trace]. split; [|reflexivity].
    left. auto.
Qed.

Lemma fn_body_bind {A} (m : M A) (k : A -> M Z) w v w1 :
  m d w = (Normal v, w1) ->
  fn_body (bind m k) d w = fn_body (k v) d w1.
Proof. intros H. rewrite !fn_body_eq, bind_eq, H. reflexivity. Qed.

Lemma Offscreen_init_triangle_result w :
  exists v w', Offscreen.init_triangle d w = (Normal v, w') /\ program_result v w'.
Proof.
  destruct (no_stop_value _ d w
              (Offscreen_LoadShader_stops GL_VERTEX_SHADER Offscreen.vShaderStr))
    as (vs & w1 & E1).
  destruct (no_stop_value _ d w1
              (Offscreen_LoadShader_stops GL_FRAGMENT_SHADER Offscreen.fShaderStr))
    as (fs & w2 & E2).
  unfold Offscreen.init_triangle.
  rewrite (fn_body_bind _ _ _ _ _ E1), (fn_body_bind _ _ _ _ _ E2).
  destruct (link_tail_result vs fs w2) as (v & w' & E & H & _). eauto.
Qed.

Lemma Multithreads_CompileProgram_result vsSource fsSource w :
  exists v w',
    Multithreads.CompileProgram vsSource fsSource d w = (Normal v, w') /\
    program_result v w'.
Proof.
  destruct (no_stop_value _ d w
              (Multithreads_LoadShader_stops GL_VERTEX_SHADER vsSource))
    as (vs & w1 & E1).
  destruct (no_stop_value _ d w1
              (Multithreads_LoadShader_stops GL_FRAGMENT_SHADER fsSource))
    as (fs & w2 & E2).
  unfold Multithreads.CompileProgram.
  rewrite (fn_body_bind _ _ _ _ _ E1), (fn_body_bind _ _ _ _ _ E2).
  destruct (link_tail_result vs fs w2) as (v & w' & E & H & _). eauto.
Qed.

(** [draw_triangle] once the program [program] is there. *)
Lemma Offscreen_draw_triangle_uses w width height :
  exists program w1 w',
    Offscreen.init_triangle d w = (Normal program, w1) /\
    program_result program w1 /\
    Offscreen.draw_triangle width height d w = (Normal tt, w') /\
    map fst (trace w') =
      draw_calls program width height Offscreen.vVertices ++ map fst (trace w1) /\
    stdout w' = stdout w1.
Proof.
  destruct (Offscreen_init_triangle_result w) as (p & w1 & E & H).
  exists p, w1. unfold Offscreen.draw_triangle, gl.
  rewrite bind_eq, E. exec. eexists. repeat split; trivial.
Qed.

Lemma Multithreads_draw_triangle_uses w width height :
  exists program w1 w',
    Multithreads.CompileProgram Multithreads.vShaderStr Multithreads.fShaderStr d w
    = (Normal program, w1) /\
    program_result program w1 /\
    Multithreads.draw_triangle width height d w = (Normal tt, w') /\
    map fst (trace w') =
      draw_calls program width height Multithreads.vVertices ++ map fst (trace w1) /\
    stdout w' = stdout w1.
Proof.
  destruct (Multithreads_CompileProgram_result
              Multithreads.vShaderStr Multithreads.fShaderStr w) as (p & w1 & E & H).
  exists p, w1. unfold Multithreads.draw_triangle, gl.
  rewrite bind_eq, E. exec. eexists. repeat split; trivial.
Qed.

End ProgramBuilder.

(** ** A failed stage and the program builder *)

Section FailedStage.

Context (d : Driver).




End FailedStage.





(** X5: [init_triangle] and [CompileProgram] always return, whatever the
    two stages gave (their results are attached unchecked), and what they
    return is a program the driver has just reported as linked, or 0: 0
    when no program object was created, and 0 right after deleting the
    program object when it failed to link. *)
Theorem program_builder_result d w :
  (exists v w', Offscreen.init_triangle d w = (Normal v, w') /\
                program_result v w') /\
  (forall vsSource fsSource,
      exists v w',
        Multithreads.CompileProgram vsSource fsSource d w = (Normal v, w') /\
        program_result v w').
Proof.
  split.
  - apply Offscreen_init_triangle_result.
  - intros. apply Multithreads_CompileProgram_result.
Qed.

(** X6: [draw_triangle] never looks at the program handle it gets: it
    always makes its six calls, viewport to [glDrawArrays], with
    [glUseProgram] on whatever the program builder returned, 0 included,
    and prints nothing of its own. *)
Theorem draw_triangle_draws_unconditionally d w width height :
  (exists program w1 w',
      Offscreen.init_triangle d w = (Normal program, w1) /\
      program_result program w1 /\
      Offscreen.draw_triangle width height d w = (Normal tt, w') /\
      map fst (trace w') =
        draw_calls program width height Offscreen.vVertices
        ++ map fst (trace w1) /\
      stdout w' = stdout w1) /\
  (exists program w1 w',
      Multithreads.CompileProgram Multithreads.vShaderStr
        Multithreads.fShaderStr d w = (Normal program, w1) /\
      program_result program w1 /\
      Multithreads.draw_triangle width height d w = (Normal tt, w') /\
      map fst (trace w') =
        draw_calls program width height Multithreads.vVertices
        ++ map fst (trace w1) /\
      stdout w' = stdout w1).
Proof.
  split.
  - apply Offscreen_draw_triangle_uses.
  - apply Multithreads_draw_triangle_uses.
Qed.

(** ** Image output *)

Section ImageOutput.

Ltac png_side :=
  let r := fresh "r" in let H := fresh "H" in
  intros r; unfold writes_png; cbn [fn fst args]; intros H;
  first [discriminate H | reflexivity].

Lemma Offscreen_main_png :
  keeps (writes_png "img.png" 512 512) never Offscreen.main.
Proof. keeps_program png_side. Qed.

(** [thread_func_a] hands the stride it computed to its loop. *)
Lemma thread_a_init_png d glCtx :
  hoare d
    (always (writes_png "img.png" (Multithreads.width glCtx)
               (Multithreads.height glCtx)))
    (Multithreads.thread_a_init glCtx)
    (fun l w =>
       always (writes_png "img.png" (Multithreads.width glCtx)
                 (Multithreads.height glCtx)) w /\
       Multithreads.stride l = readback_stride (Multithreads.width glCtx))
    (fun s w =>
       always (writes_png "img.png" (Multithreads.width glCtx)
                 (Multithreads.height glCtx)) w \/ never s w).
Proof.
  unfold Multithreads.thread_a_init. cbv zeta.
  repeat lazymatch goal with
    | |- hoare _ _ (match ?x with pair _ _ => _ end) _ _ => destruct x
    | |- hoare _ (always ?X) (bind ?m _) _ _ =>
        eapply hoare_bind with (R := fun _ => always X);
        [ let K := fresh "K" in
          assert (K : keeps X never m) by keeps_program png_side; apply K
        | intros ]
    end.
  apply hoare_ret. auto.
Qed.

Lemma thread_a_pass_png glCtx l :
  Multithreads.stride l = readback_stride (Multithreads.width glCtx) ->
  keeps (writes_png "img.png" (Multithreads.width glCtx) (Multithreads.height glCtx))
    never (Multithreads.thread_a_pass glCtx l).
Proof.
  intros Hl. unfold Multithreads.thread_a_pass. rewrite Hl.
  keeps_program png_side.
Qed.

Lemma thread_func_a_png fuel glCtx :
  keeps (writes_png "img.png" (Multithreads.width glCtx) (Multithreads.height glCtx))
    never (Multithreads.thread_func_a fuel glCtx).
Proof.
  intros d. unfold Multithreads.thread_func_a.
  eapply hoare_bind; [apply thread_a_init_png|intros l].
  intros w [Hw Hl].
  assert (K : keeps (writes_png "img.png" (Multithreads.width glCtx)
                       (Multithreads.height glCtx)) never
                (Multithreads.thread_a_loop fuel glCtx l ;;
                 Multithreads.thread_a_teardown glCtx l ;;
                 @return_ Z 0)%prog).
  { apply keeps_bind.
    - unfold Multithreads.thread_a_loop. cbv zeta.
      apply keeps_loop, thread_a_pass_png, Hl.
    - intros. keeps_program png_side. }
  exact (K d w Hw).
Qed.

Lemma thread_func_b_png glCtx :
  keeps (writes_png "img2.png" (Multithreads.width glCtx) (Multithreads.height glCtx))
    never (Multithreads.thread_func_b glCtx).
Proof. keeps_program png_side. Qed.

End ImageOutput.

(** X7: whatever the driver answers, every image the programs write goes
    to the fixed file of the session ("img.png" for the single-context
    program and session A, "img2.png" for session B), with the session's
    width and height, 4 channels, and the row stride of the inline
    sizing; the last three facts show the images being written. *)
Theorem png_output d :
  always (writes_png "img.png" 512 512) (snd (run Offscreen.main d)) /\
  (forall fuel glCtx,
      always (writes_png "img.png" (Multithreads.width glCtx)
                (Multithreads.height glCtx))
        (snd (run (Multithreads.thread_func_a fuel glCtx) d))) /\
  (forall glCtx,
      always (writes_png "img2.png" (Multithreads.width glCtx)
                (Multithreads.height glCtx))
        (snd (run (Multithreads.thread_func_b glCtx) d))) /\
  In (Call SYS "stbi_write_png"
        [Str "img.png"; Int 512; Int 512; Int 4; Buf "buffer"; Int 2048])
     (calls (snd (run Offscreen.main driver_ok))) /\
  In (Call SYS "stbi_write_png"
        [Str "img.png"; Int 512; Int 512; Int 4; Buf "buffer"; Int 2048])
     (calls (snd (run (Multithreads.thread_func_a 1 glCtx1) driver_ok))) /\
  In (Call SYS "stbi_write_png"
        [Str "img2.png"; Int 512; Int 512; Int 4; Buf "buffer"; Int 2048])
     (calls (snd (run (Multithreads.thread_func_b glCtx1) driver_ok))).
Proof.
  split; [|split; [|split; [|split; [|split]]]].
  - apply keeps_never_run, Offscreen_main_png.
  - intros. apply keeps_never_run, thread_func_a_png.
  - intros. apply keeps_never_run, thread_func_b_png.
  - vm_compute. tauto.
  - vm_compute. tauto.
  - vm_compute. tauto.
Qed.

(** ** How the two-session program ends *)

Section ExitDiscipline.

Lemma stops_Multithreads_assertEGLError S msg :
  (forall w e, e <> EGL_SUCCESS ->
     S (Exited (-1))
       (mkWorld (trace w) (EGLErrorAt e msg :: stdout w) EGL_SUCCESS
          (gl_error w))) ->
  stops_only S (Multithreads.assertEGLError msg).
Proof.
  intros H d w _. rewrite Multithreads_assertEGLError_eq.
  destruct (Z.eqb_spec (egl_error w) EGL_SUCCESS); [exact I | now apply H].
Qed.

Lemma stops_loop S fuel body :
  (forall w, S Running w) -> stops_only S body ->
  stops_only S (while fuel (ret_ true) body).
Proof.
  intros Hr Hb d.
  eapply hoare_conseq;
    [apply (hoare_while_true d (fun _ => True) body S fuel (Hb d)); auto
    | auto | intros ? ? [] | auto].
Qed.

Ltac report_side :=
  let e := fresh "e" in let He := fresh "He" in let c := fresh "c" in
  let Hc := fresh "Hc" in
  intros ? e He; cbv beta iota delta [exit_after_report];
  intros c Hc; split; [congruence|];
  exists e; eexists; first [left; split; [reflexivity | exact He]
                           | right; split; [reflexivity | exact He]].

Ltac exit_step :=
  lazymatch goal with
  | |- stops_only _ (match ?x with pair _ _ => _ end) => destruct x
  | |- stops_only _ (bind _ _) => apply stops_bind; [|intros]
  | |- stops_only _ (ret_ _) => apply stops_ret
  | |- stops_only _ (return_ _) =>
      apply stops_return; intros; first [exact I | intros ? ?; discriminate]
  | |- stops_only _ (std_vector _) =>
      apply stops_std_vector; intros ? ? ? ?; discriminate
  | |- stops_only _ (when _ _) => apply stops_when
  | |- stops_only _ (fn_body _) => apply stops_fn_body
  | |- stops_only _ (printf _) => apply stops_printf
  | |- stops_only _ (Multithreads.assertOpenGLError _) =>
      apply stops_Multithreads_assertOpenGLError; report_side
  | |- stops_only _ (Multithreads.assertEGLError _) =>
      apply stops_Multithreads_assertEGLError; report_side
  | |- stops_only _ (egl _ _ _) => apply stops_call
  | |- stops_only _ (gl _ _ _) => apply stops_call
  | |- stops_only _ (sys _ _ _) => apply stops_call
  | |- stops_only _ (Multithreads.thread_a_loop _ _ _) =>
      unfold Multithreads.thread_a_loop; cbv zeta;
      apply stops_loop; [intros ? ? ?; discriminate|]
  | |- stops_only _ (?f _ _ _ _ _) => unfold f
  | |- stops_only _ (?f _ _) => unfold f
  | |- stops_only _ (?f _) => unfold f
  | |- stops_only _ ?f => unfold f
  end; cbv zeta.

Lemma thread_func_a_exit fuel glCtx :
  stops_only exit_after_report (Multithreads.thread_func_a fuel glCtx).
Proof. repeat exit_step. Qed.

Lemma thread_func_b_exit glCtx :
  stops_only exit_after_report (Multithreads.thread_func_b glCtx).
Proof. repeat exit_step. Qed.

Lemma Multithreads_main_exit :
  stops_only exit_after_report Multithreads.main.
Proof. repeat exit_step. Qed.

Lemma stops_run {A} S (m : M A) d s :
  stops_only S m -> fst (run m d) = Abort s -> S s (snd (run m d)).
Proof.
  intros H E. specialize (H d init_world I). unfold run in *.
  destruct (m d init_world) as [[a|s'] w]; cbn in *; [discriminate|].
  now inversion E; subst.
Qed.

End ExitDiscipline.

(** X8: in the two-session program the process never exits silently or
    with another code: whenever [main], [thread_func_a] or
    [thread_func_b] ends in [exit], the code is -1 and the last line
    printed is the report of an EGL or GL error. *)
Theorem exit_only_after_report d code :
  (fst (run Multithreads.main d) = Abort (Exited code) ->
   code = -1 /\ error_reported (snd (run Multithreads.main d))) /\
  (forall fuel glCtx,
      fst (run (Multithreads.thread_func_a fuel glCtx) d) = Abort (Exited code) ->
      code = -1 /\
      error_reported (snd (run (Multithreads.thread_func_a fuel glCtx) d))) /\
  (forall glCtx,
      fst (run (Multithreads.thread_func_b glCtx) d) = Abort (Exited code) ->
      code = -1 /\
      error_reported (snd (run (Multithreads.thread_func_b glCtx) d))).
Proof.
  split; [|split].
  - intros E. exact (stops_run _ _ d _ Multithreads_main_exit E code eq_refl).
  - intros fuel glCtx E.
    exact (stops_run _ _ d _ (thread_func_a_exit fuel glCtx) E code eq_refl).
  - intros glCtx E.
    exact (stops_run _ _ d _ (thread_func_b_exit glCtx) E code eq_refl).
Qed.

(** X8, witness: session B when context creation fails. *)
Lemma exit_only_after_report_witness :
  -1 = -1 /\
  error_reported (snd (run (Multithreads.thread_func_b glCtx1)
                         (failing_at 1 EGL_BAD_CONFIG))).
Proof.
  destruct (exit_only_after_report (failing_at 1 EGL_BAD_CONFIG) (-1))
    as (_ & _ & H).
  apply (H glCtx1). vm_compute. reflexivity.
Defined.

(** ** Session B from start to end *)

Section SessionB.

Import Multithreads.

Ltac report_side2 :=
  let e := fresh "e" in let He := fresh "He" in
  intros ? e He; cbv beta iota delta [exits_with_report];
  split; [reflexivity|];
  exists e; eexists; first [left; split; [reflexivity | exact He]
                           | right; split; [reflexivity | exact He]].

Ltac exits_step :=
  lazymatch goal with
  | |- stops_only _ (match ?x with pair _ _ => _ end) => destruct x
  | |- stops_only _ (bind _ _) => apply stops_bind; [|intros]
  | |- stops_only _ (ret_ _) => apply stops_ret
  | |- stops_only _ (printf _) => apply stops_printf
  | |- stops_only _ (assertOpenGLError _) =>
      apply stops_Multithreads_assertOpenGLError; report_side2
  | |- stops_only _ (assertEGLError _) =>
      apply stops_Multithreads_assertEGLError; report_side2
  | |- stops_only _ (egl _ _ _) => apply stops_call
  | |- stops_only _ (gl _ _ _) => apply stops_call
  | |- stops_only _ (sys _ _ _) => apply stops_call
  end.

Lemma thread_b_setup_exits glCtx :
  stops_only exits_with_report (thread_b_setup glCtx).
Proof. unfold thread_b_setup. cbv zeta. repeat exits_step. Qed.

Lemma render_target_exits width height :
  stops_only exits_with_report (render_target width height).
Proof. unfold render_target. cbv zeta. repeat exits_step. Qed.

Ltac split_check :=
  match goal with
  | |- context [if ?a =? ?b then (_, _) else (_, _)] =>
      destruct (Z.eqb_spec a b)
  end.

Ltac reported_gl :=
  right; left; split; [reflexivity|];
  eexists; eexists; right; split; [reflexivity | assumption].

Ltac reported_egl :=
  right; left; split; [reflexivity|];
  eexists; eexists; left; split; [reflexivity | assumption].

Lemma thread_b_render_hoare d glCtx frameBuffer :
  hoare d (fun _ => True) (thread_b_render glCtx frameBuffer)
    (fun _ w => session_b_rendered w /\
                0 <= readback_bufferSize (width glCtx) (height glCtx))
    (session_b_ends glCtx).
Proof.
  intros w _. unfold thread_b_render, session_b_ends. cbv zeta.
  destruct (Multithreads_draw_triangle_uses d w (width glCtx) (height glCtx))
    as (p & w1 & w2 & _ & _ & E & Ht & _).
  rewrite bind_eq, E. cbv beta iota. rewrite bind_eq, std_vector_eq.
  destruct (Z.ltb_spec (readback_bufferSize (width glCtx) (height glCtx)) 0)
    as [Hv|Hv].
  { right. right. split; [reflexivity|]. split; [exact Hv|].
    exists (skipn 1 (map fn (map fst (trace w2)))).
    rewrite <- (map_map fst fn (trace w2)), Ht. reflexivity. }
  unfold gl, sys. exec.
  split_check; [|reported_gl]. exec.
  split_check; [|reported_gl]. exec.
  split; [|exact Hv]. split; [|reflexivity]. cbn [trace map fst fn].
  exists (map fn (map fst (trace w1))).
  rewrite <- (map_map fst fn (trace w2)), Ht, map_app. reflexivity.
Qed.

Lemma thread_b_teardown_hoare d glCtx surface context frameBuffer tex :
  hoare d
    (fun w => session_b_rendered w /\
              0 <= readback_bufferSize (width glCtx) (height glCtx))
    (thread_b_teardown glCtx surface context frameBuffer tex)
    (fun _ w => session_b_done w /\
                0 <= readback_bufferSize (width glCtx) (height glCtx))
    (session_b_ends glCtx).
Proof.
  intros w [[[t Ht] Hout] Hv]. unfold thread_b_teardown, session_b_ends, gl, egl.
  exec.
  split_check; [|reported_egl]. exec.
  split_check; [|reported_egl]. exec.
  split; [|exact Hv]. split; [|exact Hout]. cbn [trace map fst fn].
  exists t. rewrite Ht. reflexivity.
Qed.

(** X9: session B always ends, in exactly one of three ways:
    [thread_func_b] returns 0 after the draw, the readback, the PNG
    output and the whole teardown (surface and context destroyed), having
    announced the image, the size of its readback buffer not being
    negative; or the process has exited with -1 right after an error
    report; or the size computed for the readback buffer is negative and
    the exception of the buffer's constructor has aborted the process
    right after the draw.  It never returns early. *)
Theorem thread_func_b_returns_or_exits d glCtx :
  exists s w,
    run (thread_func_b glCtx) d = (Abort s, w) /\
    session_b_ends glCtx s w.
Proof.
  assert (H : hoare d (fun _ => True) (thread_func_b glCtx) (fun _ _ => False)
                (session_b_ends glCtx)).
  { unfold thread_func_b.
    eapply hoare_bind with (R := fun _ _ => True);
      [apply hoare_call; auto | intros ?].
    eapply hoare_bind with (R := fun _ _ => True);
      [apply hoare_printf; auto | intros ?].
    eapply hoare_bind with (R := fun _ _ => True).
    { eapply hoare_conseq; [apply thread_b_setup_exits|auto|auto|].
      intros s w Hs. right. left. exact Hs. }
    intros [surface context].
    eapply hoare_bind with (R := fun _ _ => True).
    { eapply hoare_conseq; [apply render_target_exits|auto|auto|].
      intros s w Hs. right. left. exact Hs. }
    intros [frameBuffer tex].
    eapply hoare_bind; [apply thread_b_render_hoare | intros ?].
    eapply hoare_bind; [apply thread_b_teardown_hoare | intros ?].
    apply hoare_return. intros w [Hd Hv]. left. auto. }
  specialize (H init_world I). unfold run.
  destruct (thread_func_b glCtx d init_world) as [[a|s] w]; [destruct H|].
  eauto.
Qed.

(** The third way is taken: a session of width -1 and height 1, on the
    driver that answers every call with success, is aborted after its 34
    calls up to the draw. *)
Lemma thread_func_b_negative_width :
  readback_bufferSize (-1) 1 = -4 /\
  fst (run (thread_func_b (mkGLContext 1 1 (-1) 1)) driver_ok) = Abort Thrown /\
  List.length (trace (snd (run (thread_func_b (mkGLContext 1 1 (-1) 1)) driver_ok)))
  = 34%nat /\
  nth 33 (names (snd (run (thread_func_b (mkGLContext 1 1 (-1) 1)) driver_ok))) ""
  = "glDrawArrays".
Proof. vm_compute. repeat split. Qed.

End SessionB.

(** ** The coordinator starts the sessions only after a successful setup *)

Section MainSetup.

Import Multithreads.

Ltac split_egl :=
  match goal with
  | |- context [if ?a =? ?b then (_, _) else (_, _)] =>
      destruct (Z.eqb_spec a b)
  end.

Ltac not_started :=
  right; split;
  [ unfold setup_succeeds; intros (?&?&?&?&(?&?&?)&(?&?)&?);
    first [contradiction | lia]
  | do 2 eexists; split; [reflexivity|];
    cbv [names calls trace map fst fn rev app];
    let H := fresh "H" in
    intros H; cbn [In] in H;
    repeat (destruct H as [H|H]; [discriminate H|]); exact H ].

Lemma main_setup_outcome d :
  (setup_succeeds d /\
   exists w, run main_setup d = (Normal (ret (d 0%nat), out 0 (d 4%nat)), w) /\
             names w = ["eglGetDisplay"; "eglInitialize"; "eglGetConfigs";
                        "eglChooseConfig"; "eglChooseConfig"; "eglBindAPI"] /\
             stdout w = []) \/
  (~ setup_succeeds d /\
   exists s w, run main_setup d = (Abort s, w) /\
               ~ In "pthread_create" (names w)).
Proof.
  unfold run, main_setup, egl. cbv zeta. exec.
  split_egl; [|not_started]. exec.
  split_egl; [|not_started]. exec.
  split_egl; [|not_started]. exec.
  destruct (Z.ltb_spec (out 0 (d 2%nat)) 0); [not_started|]. exec.
  unfold egl_true.
  destruct (Z.eqb_spec (ret (d 3%nat)) EGL_FALSE);
    cbn [negb orb]; [exec; split_egl; exec; not_started|].
  destruct (Z.eqb_spec (out 1 (d 3%nat)) 0);
    cbn [negb orb]; [exec; split_egl; exec; not_started|].
  destruct (Z.ltb_spec (out 0 (d 2%nat)) (out 1 (d 3%nat)));
    cbn [negb orb]; [exec; split_egl; exec; not_started|].
  exec.
  destruct (Z.eqb_spec (ret (d 4%nat)) EGL_FALSE);
    cbn [negb orb]; [exec; split_egl; exec; not_started|].
  destruct (Z.eqb_spec (out 1 (d 4%nat)) 0);
    cbn [negb orb]; [exec; split_egl; exec; not_started|].
  exec.
  split_egl; [|not_started]. exec.
  left. split; [unfold setup_succeeds; tauto|].
  eexists. split; [reflexivity|]. split; reflexivity.
Qed.

End MainSetup.

Lemma In_names f w :
  In f (names w) <-> In f (map (fun e => fn (fst e)) (trace w)).
Proof.
  unfold names, calls. rewrite <- map_rev, map_map, in_map_iff, in_map_iff.
  split; intros (e & He & Hin); exists e; (split; [exact He|]);
    [now apply in_rev | now apply in_rev in Hin].
Qed.

(** X10: [main] of multithreads.cpp starts the two sessions exactly when
    its setup gets through: the display is obtained and initialized and
    the number of configs read without an error, that number is not
    negative (else the exception of the vector's constructor aborts the
    process), both config selections return [EGL_TRUE] with a usable
    count, and the API is bound without an error.  A thread is never
    created on a display connection whose setup did not get through. *)
Theorem sessions_start_after_setup d :
  In "pthread_create" (names (snd (run Multithreads.main d))) <->
  setup_succeeds d.
Proof.
  destruct (main_setup_outcome d) as [[Hs (w & E & _)]|[Hs (s & w & E & Hn)]];
    unfold run in *; unfold Multithreads.main; cbv zeta; rewrite bind_eq, E.
  - split; [intros _; exact Hs | intros _].
    unfold Multithreads.main_coordinate, sys, gl, egl. exec.
    match goal with
    | |- context [if ?a =? ?b then (_, _) else (_, _)] =>
        destruct (Z.eqb_spec a b)
    end; exec; apply In_names; cbn [trace map fst fn In]; auto 10.
  - cbn [snd]. split; [intros H; contradiction | intros H; contradiction].
Qed.

(** X10, witness: on the driver that answers every call with success the
    sessions are started. *)
Lemma sessions_start_after_setup_witness :
  In "pthread_create" (names (snd (run Multithreads.main driver_ok))).
Proof.
  apply (proj2 (sessions_start_after_setup driver_ok)).
  unfold setup_succeeds. cbn. repeat split; (reflexivity || discriminate || lia).
Defined.

(** ** GL errors while the render target is built *)

Section RenderTarget.


(** X11: in multithreads.cpp, from a state with no GL error pending, the
    render target is handed back only if none of the eleven GL calls that
    build it raised an error, checked or not; then the error flag is
    clear, nothing has been printed, and the framebuffer and the texture
    are the objects that [glGenFramebuffers] and [glGenTextures] stored. *)
Theorem render_target_clean d w width height v w' :
  gl_error w = GL_NO_ERROR ->
  Multithreads.render_target width height d w = (Normal v, w') ->
  v = (out 0 (d (List.length (trace w))),
       out 0 (d (2 + List.length (trace w))%nat)) /\
  gl_error w' = GL_NO_ERROR /\
  stdout w' = stdout w /\
  forall k, (k < 11)%nat ->
            raised GL (d (k + List.length (trace w))%nat) = GL_NO_ERROR.
Proof.
  intros Hgl. unfold Multithreads.render_target, gl. cbv zeta.
  exec. rewrite Hgl. change (GL_NO_ERROR =? GL_NO_ERROR) with true. cbv iota.
  repeat (exec; cbv iota;
          match goal with
          | |- context [raised GL (d ?k) =? GL_NO_ERROR] =>
              destruct (Z.eqb_spec (raised GL (d k)) GL_NO_ERROR)
          end;
          try contradiction;
          exec; cbv iota;
          change (GL_NO_ERROR =? GL_NO_ERROR) with true; cbv iota;
          try (let H := fresh in intros H; discriminate H)).
  intros H. inversion H; subst. cbn [gl_error stdout Nat.add].
  repeat split.
  intros k Hk.
  do 11 (destruct k as [|k]; [cbn [Nat.add]; assumption|]). lia.
Qed.

(** X11, witness: the driver on which every call succeeds. *)
Lemma render_target_clean_witness :
  gl_error init_world = GL_NO_ERROR /\
  forall k, (k < 11)%nat ->
            raised GL (driver_ok (k + List.length (trace init_world))%nat)
            = GL_NO_ERROR.
Proof.
  split; [reflexivity|].
  destruct (render_target_clean driver_ok init_world 512 512 (1, 1)
              (snd (Multithreads.render_target 512 512 driver_ok init_world))
              eq_refl) as (_ & _ & _ & H).
  - vm_compute. reflexivity.
  - exact H.
Defined.

Lemma Offscreen_assertOpenGLError_eq msg d w :
  Offscreen.assertOpenGLError msg d w =
  (Normal tt,
   mkWorld (trace w)
     ((if gl_error w =? GL_NO_ERROR then []
       else [OpenGLErrorAt (gl_error w) msg]) ++ stdout w)
     (egl_error w) GL_NO_ERROR).
Proof.
  unfold Offscreen.assertOpenGLError, glGetError, bind, when, printf, ret_. cbn.
  destruct (gl_error w =? GL_NO_ERROR); reflexivity.
Qed.

(** X12: [glGenTextures] is followed by no check of its own.  When it is
    the first call of the render-target code to raise an error [e], the
    error is reported two calls later under the label ["glTexImage2D"]:
    multithreads.cpp prints that line and exits with -1 after
    [glTexImage2D] was issued; offscreen_egl.cpp prints it and builds the
    rest of the render target. *)
Theorem glGenTextures_error_attribution d w width height e :
  gl_error w = GL_NO_ERROR ->
  raised GL (d (List.length (trace w))) = GL_NO_ERROR ->
  raised GL (d (1 + List.length (trace w))%nat) = GL_NO_ERROR ->
  raised GL (d (2 + List.length (trace w))%nat) = e ->
  e <> GL_NO_ERROR ->
  (exists w',
      Multithreads.render_target width height d w
      = (Abort (Exited (-1)), w') /\
      stdout w' = OpenGLErrorAt e "glTexImage2D" :: stdout w /\
      firstn 3 (map (fun c => fn (fst c)) (trace w'))
      = ["glTexImage2D"; "glBindTexture"; "glGenTextures"] /\
      List.length (trace w') = (5 + List.length (trace w))%nat) /\
  (exists v w' later,
      Offscreen.main_render_target d w = (Normal v, w') /\
      stdout w' = later ++ OpenGLErrorAt e "glTexImage2D" :: stdout w /\
      List.length (trace w') = (11 + List.length (trace w))%nat).
Proof.
  intros Hgl H0 H1 H2 He. cbn [Nat.add] in *.
  assert (Hb : (e =? GL_NO_ERROR) = false) by (apply Z.eqb_neq; exact He).
  split.
  - eexists. split.
    + unfold Multithreads.render_target, gl. cbv zeta.
      repeat (exec; rewrite ?Hgl, ?H0, ?H1, ?H2, ?Hb;
              change (GL_NO_ERROR =? GL_NO_ERROR) with true; cbv iota).
      reflexivity.
    + cbn [stdout trace map firstn fst fn List.length Nat.add].
      repeat split.
  - eexists _, _, _. split.
    + unfold Offscreen.main_render_target, gl. cbv zeta.
      repeat (exec; rewrite ?Offscreen_assertOpenGLError_eq;
              cbn [trace stdout egl_error gl_error];
              rewrite ?Hgl, ?H0, ?H1, ?H2, ?Hb;
              change (GL_NO_ERROR =? GL_NO_ERROR) with true; cbv iota).
      reflexivity.
    + cbn [stdout trace List.length Nat.add app]. split; [|reflexivity].
      rewrite !app_assoc. reflexivity.
Qed.

(** X12, witness: [glGenTextures], the third call, fails with
    [GL_OUT_OF_MEMORY]. *)
Lemma glGenTextures_error_attribution_witness :
  exists w',
    Multithreads.render_target 512 512 (failing_at 2 1285) init_world
    = (Abort (Exited (-1)), w') /\
    stdout w' = [OpenGLErrorAt 1285 "glTexImage2D"].
Proof.
  destruct (glGenTextures_error_attribution (failing_at 2 1285) init_world
              512 512 1285 eq_refl eq_refl eq_refl eq_refl)
    as ((w' & E & Hout & _) & _).
  - discriminate.
  - exists w'. split; [exact E | exact Hout].
Defined.

End RenderTarget.
